(** * analyze_and_clean_excel_file: a shallow embedding

    The repository holds one Python function, [analyze_and_clean_excel_file]
    (src/analyze_and_clean_excel.py), which reads a spreadsheet into a pandas
    DataFrame, renames its columns, checks it for missing values and duplicate
    rows, strips text columns, formats date columns, selects numeric columns
    for plotting and assembles a dictionary of results.

    The embedding follows the function line by line.  The frame returned by
    [pd.read_excel] is the input.  Python strings are modelled by [string],
    each character being a code point below 256; characters beyond, which
    [lower] may turn into several, are not modelled.  A text column holds
    text and missing values; cells of another kind, which [x.str.rstrip()]
    turns into missing values, are not modelled.  Calls into matplotlib and
    seaborn are recorded in a log.  Rendering done by pandas itself
    ([str] of a Series, [describe]) is a parameter of the function;
    [PandasRepr] gives [str] of the Series of counts for the warning of
    line 52. *)

From Stdlib Require Import List String Ascii Bool Arith ZArith Lia.
From Stdlib Require Import SpecFloat.
Import ListNotations.
Local Open Scope string_scope.
Local Open Scope list_scope.
Local Open Scope nat_scope.

Set Implicit Arguments.

(** ** Characters and strings *)

Module PyStr.

Definition code (c : ascii) : nat := nat_of_ascii c.

(** The class [[A-Z]] of the regular expression. *)
Definition is_AZ (c : ascii) : bool := (65 <=? code c) && (code c <=? 90).

(** The class [[a-z]] of the regular expression. *)
Definition is_az (c : ascii) : bool := (97 <=? code c) && (code c <=? 122).

(** [str.isspace] on code points below 256: tab to carriage return, the
    four separators 28 to 31, space, NEL and the no-break space. *)
Definition is_space (c : ascii) : bool :=
  let n := code c in
  ((9 <=? n) && (n <=? 13)) || ((28 <=? n) && (n <=? 32)) ||
  (n =? 133) || (n =? 160).

(** [str.lower] on one code point below 256: the ASCII capitals and the
    Latin-1 capitals (192 to 222, the multiplication sign 215 apart) move
    up by 32. *)
Definition lower_char (c : ascii) : ascii :=
  let n := code c in
  if is_AZ c then ascii_of_nat (n + 32)
  else if (192 <=? n) && (n <=? 222) && negb (n =? 215)
       then ascii_of_nat (n + 32)
       else c.

Fixpoint map_chars (f : ascii -> ascii) (s : string) : string :=
  match s with
  | EmptyString => EmptyString
  | String c rest => String (f c) (map_chars f rest)
  end.

(** [s.lower()] *)
Definition lower (s : string) : string := map_chars lower_char s.

(** [s.replace(" ", "_")]: both arguments are one character long. *)
Definition replace_space (s : string) : string :=
  map_chars (fun c => if Ascii.eqb c " " then "_"%char else c) s.

(** The lookahead [(?=[A-Z][a-z])] at the head of [s]. *)
Definition lookahead_Aa (s : string) : bool :=
  match s with
  | String c (String d _) => is_AZ c && is_az d
  | _ => false
  end.

(** Positions 1, 2, ... of the subject: an underscore goes in front of the
    character wherever the lookahead holds. *)
Fixpoint sub_inner (s : string) : string :=
  match s with
  | EmptyString => EmptyString
  | String c rest =>
      if lookahead_Aa s then String "_" (String c (sub_inner rest))
      else String c (sub_inner rest)
  end.

(** [re.sub('(?<!^)(?=[A-Z][a-z])', '_', s)]: the pattern matches the empty
    string at every position that is not the start of [s] and is followed
    by a capital and a small letter. *)
Definition re_sub_word_start (s : string) : string :=
  match s with
  | EmptyString => EmptyString
  | String c rest => String c (sub_inner rest)
  end.

(** [s.rstrip()] *)
Fixpoint rstrip (s : string) : string :=
  match s with
  | EmptyString => EmptyString
  | String c rest =>
      match rstrip rest with
      | EmptyString => if is_space c then EmptyString else String c EmptyString
      | kept => String c kept
      end
  end.

Fixpoint all_chars (p : ascii -> bool) (s : string) : bool :=
  match s with
  | EmptyString => true
  | String c rest => p c && all_chars p rest
  end.

Fixpoint last_char (s : string) : option ascii :=
  match s with
  | EmptyString => None
  | String c EmptyString => Some c
  | String _ rest => last_char rest
  end.

(** Decimal digits, as [str(n)] and the [%d] family print them. *)
Definition digit (n : nat) : ascii := ascii_of_nat (48 + n mod 10).

Fixpoint decimal_fuel (fuel n : nat) (acc : string) : string :=
  match fuel with
  | O => acc
  | S fuel' =>
      let acc' := String (digit n) acc in
      if n <? 10 then acc' else decimal_fuel fuel' (n / 10) acc'
  end.

(** [str(n)] for a natural number. *)
Definition str_nat (n : nat) : string := decimal_fuel (S n) n EmptyString.

(** Zero padding on the left up to [width] characters ([%02d], [%04d]). *)
Fixpoint zero_pad (width : nat) (s : string) : string :=
  if width <=? String.length s then s
  else match width with
       | O => s
       | S w => String "0" (zero_pad w s)
       end.

End PyStr.

(** ** Column names (lines 34 to 46) *)

Definition exception_rule : Type := (string * string)%type.

(** [col in [e[0] for e in exceptions]] *)
Definition in_sources (exceptions : list exception_rule) (col : string) : bool :=
  existsb (String.eqb col) (map fst exceptions).

(** [[e[1] for e in exceptions if e[0] == col]] *)
Definition targets_of (exceptions : list exception_rule) (col : string)
  : list string :=
  map snd (filter (fun e => String.eqb (fst e) col) exceptions).

(** [re.sub(...).lower().replace(" ", "_")] *)
Definition snake_case (col : string) : string :=
  PyStr.replace_space (PyStr.lower (PyStr.re_sub_word_start col)).

(** The body of the first loop.  [exceptions and ...] is false for the empty
    list; the subscript [[0]] is only reached when the list has an element. *)
Definition new_col_of (exceptions : list exception_rule) (col : string) : string :=
  if negb (Nat.eqb (List.length exceptions) 0) && in_sources exceptions col
  then hd EmptyString (targets_of exceptions col)
  else snake_case col.

(** [df.rename(columns={old_col: new_col})] on the labels. *)
Definition rename_label (old_col new_col : string) (columns : list string)
  : list string :=
  map (fun c => if String.eqb c old_col then new_col else c) columns.

(** The second loop: [if old_col in df.columns: df.rename(...)]. *)
Fixpoint rename_exceptions (exceptions : list exception_rule)
  (columns : list string) : list string :=
  match exceptions with
  | [] => columns
  | (old_col, new_col) :: rest =>
      rename_exceptions rest
        (if existsb (String.eqb old_col) columns
         then rename_label old_col new_col columns
         else columns)
  end.

(** Lines 34 to 46 on the labels of the frame. *)
Definition format_column_names (exceptions : list exception_rule)
  (columns : list string) : list string :=
  rename_exceptions exceptions (map (new_col_of exceptions) columns).

(** The default value of the argument [exceptions]. *)
Definition default_exceptions : list exception_rule :=
  [("EXAMPLEID", "example_id")].

(** What the second loop does to one label: the rules are tried in order on
    the label as it stands. *)
Definition reapply (exceptions : list exception_rule) (name : string) : string :=
  fold_left (fun n (e : exception_rule) => if String.eqb n (fst e) then snd e else n)
    exceptions name.

(** ** Data model: typed columns *)

(** A [datetime64[ns]] value that is not [NaT]. *)
Record Timestamp : Type := mkTimestamp
  { year : nat; month : nat; day : nat; time_of_day_ns : N }.

(** The column types [pd.read_excel] hands over.  An [object] column holds
    text or nothing ([None]/[NaN]); [int64] and [bool] columns have no missing
    marker; in a [float64] column the missing marker is NaN; in a
    [datetime64] column it is [NaT], here [None]. *)
Inductive Series : Type :=
| ObjectSeries (values : list (option string))
| Int64Series (values : list Z)
| Float64Series (values : list spec_float)
| DatetimeSeries (values : list (option Timestamp))
| BoolSeries (values : list bool).

Inductive dtype : Type := object | int64 | float64 | datetime64 | bool_.

Definition dtype_of (s : Series) : dtype :=
  match s with
  | ObjectSeries _ => object
  | Int64Series _ => int64
  | Float64Series _ => float64
  | DatetimeSeries _ => datetime64
  | BoolSeries _ => bool_
  end.

Definition dtype_eqb (a b : dtype) : bool :=
  match a, b with
  | object, object | int64, int64 | float64, float64
  | datetime64, datetime64 | bool_, bool_ => true
  | _, _ => false
  end.

Definition len (s : Series) : nat :=
  match s with
  | ObjectSeries l => List.length l
  | Int64Series l => List.length l
  | Float64Series l => List.length l
  | DatetimeSeries l => List.length l
  | BoolSeries l => List.length l
  end.

Record Column : Type := mkColumn { label : string; data : Series }.

(** A DataFrame: its columns from left to right.  Labels may repeat. *)
Definition DataFrame : Type := list Column.

Definition labels (df : DataFrame) : list string := map label df.

(** [len(df)]: every column of a frame has the length of its index. *)
Definition nrows (df : DataFrame) : nat :=
  match df with
  | [] => 0
  | c :: _ => len (data c)
  end.

(** [df.shape] *)
Definition shape (df : DataFrame) : nat * nat := (nrows df, List.length df).

(** [df.columns = new_cols] *)
Definition set_columns (df : DataFrame) (new_cols : list string) : DataFrame :=
  map (fun p => mkColumn (snd p) (data (fst p))) (combine df new_cols).

(** ** Cells, as the hash tables behind [unique] and [duplicated] compare them *)

Inductive cell : Type :=
| CStr (v : option string)
| CInt (v : Z)
| CFloat (v : spec_float)
| CDate (v : option Timestamp)
| CBool (v : bool).

(** The float64 hash table takes [a == b or (a != a and b != b)] for
    equality: the two zeros are one key and NaN is one key. *)
Definition float_key (x : spec_float) : spec_float :=
  match x with
  | S754_zero _ => S754_zero false
  | _ => x
  end.

Definition cells (s : Series) : list cell :=
  match s with
  | ObjectSeries l => map CStr l
  | Int64Series l => map CInt l
  | Float64Series l => map (fun x => CFloat (float_key x)) l
  | DatetimeSeries l => map CDate l
  | BoolSeries l => map CBool l
  end.

(** [pd.isnull] on one cell. *)
Definition isnull (c : cell) : bool :=
  match c with
  | CStr None => true
  | CFloat S754_nan => true
  | CDate None => true
  | _ => false
  end.

Definition spec_float_eq_dec (x y : spec_float) : {x = y} + {x <> y}.
Proof.
  decide equality; auto using Bool.bool_dec, Pos.eq_dec, Z.eq_dec.
Defined.

Definition Timestamp_eq_dec (x y : Timestamp) : {x = y} + {x <> y}.
Proof.
  decide equality; auto using Nat.eq_dec, N.eq_dec.
Defined.

Definition option_eq_dec (A : Type) (dec : forall a b : A, {a = b} + {a <> b})
  (x y : option A) : {x = y} + {x <> y}.
Proof.
  decide equality.
Defined.

Definition option_string_eq_dec : forall x y : option string, {x = y} + {x <> y} :=
  option_eq_dec string_dec.

Definition option_Timestamp_eq_dec
  : forall x y : option Timestamp, {x = y} + {x <> y} :=
  option_eq_dec Timestamp_eq_dec.

Definition cell_eq_dec (x y : cell) : {x = y} + {x <> y}.
Proof.
  decide equality;
    auto using Bool.bool_dec, Z.eq_dec, spec_float_eq_dec,
      option_string_eq_dec, option_Timestamp_eq_dec.
Defined.

(** ** First occurrences *)

Section FirstOccurrences.

Variable A : Type.
Variable eq_dec : forall a b : A, {a = b} + {a <> b}.

Definition mem (x : A) (l : list A) : bool :=
  if in_dec eq_dec x l then true else false.

(** One pass with the table of the keys met so far: an element is flagged
    when its key is already in the table. *)
Fixpoint duplicated_from (seen : list A) (l : list A) : list bool :=
  match l with
  | [] => []
  | x :: rest =>
      if mem x seen then true :: duplicated_from seen rest
      else false :: duplicated_from (x :: seen) rest
  end.

(** The same pass keeping the elements that are not flagged. *)
Fixpoint unique_from (seen : list A) (l : list A) : list A :=
  match l with
  | [] => []
  | x :: rest =>
      if mem x seen then unique_from seen rest
      else x :: unique_from (x :: seen) rest
  end.

End FirstOccurrences.

(** [s.unique()]: the distinct values in order of first appearance; a missing
    value is one of them. *)
Definition unique (s : Series) : list cell := unique_from cell_eq_dec [] (cells s).

(** Row [i] of the frame. *)
Definition row (df : DataFrame) (i : nat) : list (option cell) :=
  map (fun c => nth_error (cells (data c)) i) df.

Definition rows (df : DataFrame) : list (list (option cell)) :=
  map (row df) (seq 0 (nrows df)).

Definition row_eq_dec : forall a b : list (option cell), {a = b} + {a <> b} :=
  list_eq_dec (option_eq_dec cell_eq_dec).

(** [df.duplicated()] with its default [keep='first']. *)
Definition duplicated (df : DataFrame) : list bool :=
  duplicated_from row_eq_dec [] (rows df).

(** [.sum()] of a boolean Series. *)
Definition sum_bool (l : list bool) : nat := List.length (filter (fun b => b) l).

(** [.sum()] of a Series of counts. *)
Definition sum_nat (l : list nat) : nat := fold_right Nat.add 0 l.

(** [s.isnull().sum()] *)
Definition null_count (s : Series) : nat := List.length (filter isnull (cells s)).

(** [df.isnull().sum()]: label and number of missing entries, per column. *)
Definition isnull_sum (df : DataFrame) : list (string * nat) :=
  map (fun c => (label c, null_count (data c))) df.

(** ** Exceptions *)

Inductive error : Type :=
| KeyError (key : string)
| AttributeError
| ValueError.

Definition result (A : Type) : Type := (error + A)%type.

Definition Ok (A : Type) (a : A) : result A := inr a.
Definition Raise (A : Type) (e : error) : result A := inl e.
Arguments Raise {A} e.

Definition bind (A B : Type) (m : result A) (k : A -> result B) : result B :=
  match m with
  | inl e => inl e
  | inr a => k a
  end.

Notation "x <- m ;; k" := (bind m (fun x => k))
  (at level 61, m at next level, right associativity).

Fixpoint mapM (A B : Type) (f : A -> result B) (l : list A) : result (list B) :=
  match l with
  | [] => Ok []
  | x :: rest => y <- f x ;; ys <- mapM f rest ;; Ok (y :: ys)
  end.

(** ** Access by label *)

(** The columns of [df] carrying the label [key]. *)
Definition labelled (df : DataFrame) (key : string) : list Column :=
  filter (fun c => String.eqb (label c) key) df.

(** [df[key]] for one label: what comes back holds every column so labelled,
    a Series when there is one, a DataFrame when there are several. *)
Definition getitem (df : DataFrame) (key : string) : result (list Column) :=
  match labelled df key with
  | [] => Raise (KeyError key)
  | found => Ok found
  end.

(** Use of a Series attribute ([.dt], [.unique]) on the outcome of [df[key]]:
    a DataFrame has none of them. *)
Definition as_series (found : list Column) : result Series :=
  match found with
  | [c] => Ok (data c)
  | _ => Raise AttributeError
  end.

(** [df[keys]] for a list of labels. *)
Definition getitem_list (df : DataFrame) (keys : list string) : result DataFrame :=
  parts <- mapM (getitem df) keys ;; Ok (List.concat parts).

(** [df[key] = s] for a label already present. *)
Definition setitem (df : DataFrame) (key : string) (s : Series) : DataFrame :=
  map (fun c => if String.eqb (label c) key then mkColumn key s else c) df.

(** [df[keys] = value] for a frame [value]: the lengths are compared, then
    [self[k1] = value[k2]] runs over [zip(keys, value.columns)].  The model
    covers keys that select one column each; when a key selects several,
    [value] has more columns than there are keys and the model raises
    [ValueError] ("Columns must be same length as key"). *)
Fixpoint setitem_pairs (df : DataFrame) (pairs : list (string * Column))
  : DataFrame :=
  match pairs with
  | [] => df
  | (k1, c2) :: rest => setitem_pairs (setitem df k1 (data c2)) rest
  end.

Definition setitem_list (df : DataFrame) (keys : list string) (value : DataFrame)
  : result DataFrame :=
  if Nat.eqb (List.length value) (List.length keys)
  then Ok (setitem_pairs df (combine keys value))
  else Raise ValueError.

(** Lines 34 to 46 on the frame: the data stay, the labels change. *)
Definition format_columns (df : DataFrame) (exceptions : list exception_rule)
  : DataFrame :=
  set_columns df (format_column_names exceptions (labels df)).

(** [df.select_dtypes(include=...)] *)
Definition select_dtypes (include : list dtype) (df : DataFrame) : DataFrame :=
  filter (fun c => existsb (dtype_eqb (dtype_of (data c))) include) df.

Fixpoint filterM (A : Type) (p : A -> result bool) (l : list A) : result (list A) :=
  match l with
  | [] => Ok []
  | x :: rest =>
      keep <- p x ;;
      kept <- filterM p rest ;;
      Ok (if keep then x :: kept else kept)
  end.

(** The line feed written "\n" in the source. *)
Definition nl : string := String (ascii_of_nat 10) EmptyString.

(** ** Calls into matplotlib and seaborn *)

Inductive plot_call : Type :=
| plt_boxplot (values : list Series)
| plt_title (title : string)
| plt_show
| sns_distplot (x : list Column).

(** ** The function *)

Section Pipeline.

(** What pandas renders is left open: the table [describe] returns, and the
    text [str] gives for the Series of counts and for [df.dtypes]. *)
Variable Summary : Type.
Variable describe : DataFrame -> Summary.
Variable str_counts : list (string * nat) -> string.
Variable str_dtypes : list (string * dtype) -> string.

(** The dictionary [results]: six keys, always present. *)
Record Report : Type := mkReport
  { missing_values_warning : option string;
    duplicates_warning : option string;
    data_types : string;
    box_plot_title : option string;
    dist_plots_title : option string;
    dataframe_summary : option Summary }.

(** Lines 49 to 54. *)
Definition check_missing_values (df : DataFrame) : option string :=
  let missing_values := isnull_sum df in
  let positive := filter (fun p => 0 <? snd p) missing_values in
  if 0 <? sum_nat (map snd missing_values)
  then Some ("Warning: the following columns have missing values:" ++ nl
             ++ str_counts positive)%string
  else None.

(** Lines 57 to 61. *)
Definition check_duplicates (df : DataFrame) : option string :=
  let duplicates := sum_bool (duplicated df) in
  if 0 <? duplicates
  then Some ("Warning: there are " ++ PyStr.str_nat duplicates
             ++ " duplicate rows in the dataset.")%string
  else None.

(** Lines 64 and 65. *)
Definition check_data_types (df : DataFrame) : string :=
  ("Data types:" ++ nl
   ++ str_dtypes (map (fun c => (label c, dtype_of (data c))) df))%string.

(** [x.str.rstrip()]: the accessor exists on text columns only; a missing
    value stays missing. *)
Definition str_rstrip (x : Series) : result Series :=
  match x with
  | ObjectSeries l => Ok (ObjectSeries (map (option_map PyStr.rstrip) l))
  | _ => Raise AttributeError
  end.

(** [lambda x: x.str.rstrip() if x.dtype == 'object' else x] *)
Definition rstrip_lambda (x : Series) : result Series :=
  if dtype_eqb (dtype_of x) object then str_rstrip x else Ok x.

(** [frame.apply(f)], column by column. *)
Definition apply (f : Series -> result Series) (frame : DataFrame)
  : result DataFrame :=
  mapM (fun c => y <- f (data c) ;; Ok (mkColumn (label c) y)) frame.

(** Lines 68 and 69. *)
Definition rstrip_string_columns (df : DataFrame) : result DataFrame :=
  let string_cols := labels (select_dtypes [object] df) in
  sub <- getitem_list df string_cols ;;
  value <- apply rstrip_lambda sub ;;
  setitem_list df string_cols value.

(** [strftime('%m/%d/%Y')] on one timestamp. *)
Definition strftime_mdY (t : Timestamp) : string :=
  (PyStr.zero_pad 2 (PyStr.str_nat (month t)) ++ "/"
   ++ PyStr.zero_pad 2 (PyStr.str_nat (day t)) ++ "/"
   ++ PyStr.zero_pad 4 (PyStr.str_nat (year t)))%string.

(** [x.dt.strftime('%m/%d/%Y')]: the accessor exists on datetime columns
    only; the outcome is a text column in which [NaT] is missing. *)
Definition dt_strftime (x : Series) : result Series :=
  match x with
  | DatetimeSeries l => Ok (ObjectSeries (map (option_map strftime_mdY) l))
  | _ => Raise AttributeError
  end.

(** The loop of lines 73 and 74. *)
Fixpoint convert_dates (date_cols : list string) (df : DataFrame)
  : result DataFrame :=
  match date_cols with
  | [] => Ok df
  | col :: rest =>
      found <- getitem df col ;;
      x <- as_series found ;;
      y <- dt_strftime x ;;
      convert_dates rest (setitem df col y)
  end.

(** Lines 72 to 74. *)
Definition convert_date_columns (df : DataFrame) : result DataFrame :=
  convert_dates (labels (select_dtypes [datetime64] df)) df.

(** [len(df[col].unique()) > 10] *)
Definition more_than_10_unique (df : DataFrame) (col : string) : result bool :=
  found <- getitem df col ;;
  x <- as_series found ;;
  Ok (10 <? List.length (unique x)).

(** Lines 79 to 87: the new value of [numerical_columns], the title and the
    calls made. *)
Definition box_plot (df : DataFrame) (numerical_columns : list string)
  : result (list string * option string * list plot_call) :=
  if 0 <? List.length numerical_columns then
    numerical_columns' <- filterM (more_than_10_unique df) numerical_columns ;;
    let box_plot_title :=
      ("Box plot of data values for "
       ++ String.concat ", " numerical_columns')%string in
    sub <- getitem_list df numerical_columns' ;;
    Ok (numerical_columns', Some box_plot_title,
        [plt_boxplot (map data sub); plt_title box_plot_title; plt_show])
  else Ok (numerical_columns, None, []).

(** Lines 90 to 97. *)
Definition dist_plots (df : DataFrame) (numerical_columns : list string)
  : result (option string * list plot_call) :=
  if 0 <? List.length numerical_columns then
    calls <- mapM (fun col =>
                     found <- getitem df col ;;
                     Ok [sns_distplot found;
                         plt_title ("Distribution of " ++ col)%string;
                         plt_show])
                  numerical_columns ;;
    Ok (Some "Distribution plots for numerical columns", List.concat calls)
  else Ok (None, []).

(** Lines 100 to 103. *)
Definition summary (df : DataFrame) (numerical_columns : list string)
  : result (option Summary) :=
  if 0 <? List.length numerical_columns then
    sub <- getitem_list df numerical_columns ;;
    Ok (Some (describe sub))
  else Ok None.

(** The whole function, from the frame [pd.read_excel] returned: the cleaned
    frame, the dictionary of results and the plotting calls in the order
    they were made. *)
Definition analyze_and_clean_excel_file (read_excel : DataFrame)
  (exceptions : list exception_rule)
  : result (DataFrame * Report * list plot_call) :=
  let df := format_columns read_excel exceptions in
  let missing_values_warning := check_missing_values df in
  let duplicates_warning := check_duplicates df in
  let data_types := check_data_types df in
  df <- rstrip_string_columns df ;;
  df <- convert_date_columns df ;;
  let numerical_columns := labels (select_dtypes [int64; float64] df) in
  boxed <- box_plot df numerical_columns ;;
  let numerical_columns := fst (fst boxed) in
  let box_plot_title := snd (fst boxed) in
  dist <- dist_plots df numerical_columns ;;
  let dist_plots_title := fst dist in
  df_summary <- summary df numerical_columns ;;
  Ok (df,
      mkReport missing_values_warning duplicates_warning data_types
        box_plot_title dist_plots_title df_summary,
      snd boxed ++ snd dist).

End Pipeline.

(** ** The stages, column by column

    What each stage comes to on a frame whose accesses by label succeed; the
    properties below relate the code to these. *)

(** Line 69 on one column. *)
Definition rstrip_column (c : Column) : Column :=
  match data c with
  | ObjectSeries l => mkColumn (label c) (ObjectSeries (map (option_map PyStr.rstrip) l))
  | _ => c
  end.

(** Line 74 on one column. *)
Definition strftime_column (c : Column) : Column :=
  match data c with
  | DatetimeSeries l =>
      mkColumn (label c) (ObjectSeries (map (option_map strftime_mdY) l))
  | _ => c
  end.

(** The column types [include=[int, float]] selects. *)
Definition is_numeric (c : Column) : bool :=
  existsb (dtype_eqb (dtype_of (data c))) [int64; float64].

(** [len(s.unique())] *)
Definition nunique (s : Series) : nat := List.length (unique s).

(** The numeric columns with more than 10 distinct values, in frame order. *)
Definition outlier_selection (df : DataFrame) : DataFrame :=
  filter (fun c => is_numeric c && (10 <? nunique (data c))) df.

(** The calls of lines 83 to 85. *)
Definition box_calls (selection : DataFrame) : list plot_call :=
  [plt_boxplot (map data selection);
   plt_title ("Box plot of data values for "
              ++ String.concat ", " (labels selection))%string;
   plt_show].

(** The calls of lines 93 to 95 for one column. *)
Definition dist_calls (c : Column) : list plot_call :=
  [sns_distplot [c]; plt_title ("Distribution of " ++ label c)%string; plt_show].

(** Lines 69 and 74 on the whole frame. *)
Definition cleaned (df : DataFrame) : DataFrame :=
  map strftime_column (map rstrip_column df).

Section Outcome.

Variable Summary : Type.
Variable describe : DataFrame -> Summary.
Variable str_counts : list (string * nat) -> string.
Variable str_dtypes : list (string * dtype) -> string.

(** What the function returns and the calls it makes when it returns. *)
Definition outcome (read_excel : DataFrame) (exceptions : list exception_rule)
  : DataFrame * Report Summary * list plot_call :=
  let df := format_columns read_excel exceptions in
  let df' := cleaned df in
  let numeric := select_dtypes [int64; float64] df' in
  let selection := outlier_selection df' in
  (df',
   mkReport (check_missing_values str_counts df) (check_duplicates df)
     (check_data_types str_dtypes df)
     (match numeric with
      | [] => None
      | _ => Some ("Box plot of data values for "
                   ++ String.concat ", " (labels selection))%string
      end)
     (match selection with
      | [] => None
      | _ => Some "Distribution plots for numerical columns"
      end)
     (match selection with
      | [] => None
      | _ => Some (describe selection)
      end),
   (match numeric with [] => [] | _ => box_calls selection end)
   ++ flat_map dist_calls selection).

End Outcome.

(** A string that does not end in whitespace. *)
Definition ends_clean (s : string) : Prop :=
  match PyStr.last_char s with
  | Some c => PyStr.is_space c = false
  | None => True
  end.

(** The digits [%02d] and [%04d] write. *)
Definition two_digits (n : nat) : string :=
  String (PyStr.digit (n / 10)) (String (PyStr.digit n) EmptyString).

Definition four_digits (n : nat) : string :=
  String (PyStr.digit (n / 1000))
    (String (PyStr.digit (n / 100))
       (String (PyStr.digit (n / 10)) (String (PyStr.digit n) EmptyString))).

(** The length of every column, from left to right. *)
Definition lens (df : DataFrame) : list nat := map (fun c => len (data c)) df.

(** 0.0 and 1.0 as binary64 values. *)
Definition float_zero : spec_float := S754_zero false.
Definition float_one : spec_float := S754_finite false 4503599627370496 (-52).

(** ** [str] of a Series of counts

    Modelled from pandas, with its display options at their defaults
    ([display.max_rows] 60, [display.min_rows] 10): what [str] returns for
    a Series of int64 values whose index holds the column labels and neither
    the Series nor its index has a name.  This is the text line 52 appends to
    the heading. *)

Module PandasRepr.

Fixpoint spaces (n : nat) : string :=
  match n with
  | O => EmptyString
  | S k => String " " (spaces k)
  end.

(** [s.ljust(width)], [s.rjust(width)] and [s.center(width)] *)
Definition ljust (width : nat) (s : string) : string :=
  (s ++ spaces (width - String.length s))%string.

Definition rjust (width : nat) (s : string) : string :=
  (spaces (width - String.length s) ++ s)%string.

Definition center (width : nat) (s : string) : string :=
  let pad := width - String.length s in
  let left := pad / 2 + (pad mod 2) * (width mod 2) in
  (spaces left ++ s ++ spaces (pad - left))%string.

(** [pprint_thing] with [escape_chars = ("\t", "\r", "\n")]: a tab, a
    carriage return and a line feed are written as a backslash and a letter. *)
Fixpoint escape (s : string) : string :=
  match s with
  | EmptyString => EmptyString
  | String c rest =>
      let n := PyStr.code c in
      if n =? 9 then String (ascii_of_nat 92) (String "t" (escape rest))
      else if n =? 13 then String (ascii_of_nat 92) (String "r" (escape rest))
      else if n =? 10 then String (ascii_of_nat 92) (String "n" (escape rest))
      else String c (escape rest)
  end.

Definition starts_with_space (s : string) : bool :=
  match s with
  | String c _ => Ascii.eqb c " "
  | EmptyString => false
  end.

Definition drop_first (s : string) : string :=
  match s with
  | String _ rest => rest
  | EmptyString => EmptyString
  end.

(** The loop of [trim_front]: while every string starts with a space, the
    first character of every string goes.  Each round shortens the first
    string, whose length bounds the number of rounds. *)
Fixpoint trim_rounds (rounds : nat) (strings : list string) : list string :=
  match rounds with
  | O => strings
  | S k =>
      if forallb starts_with_space strings
      then trim_rounds k (map drop_first strings)
      else strings
  end.

Definition trim_front (strings : list string) : list string :=
  match strings with
  | [] => []
  | first :: _ => trim_rounds (String.length first) strings
  end.

(** The index as the Series formatter gets it: every label escaped behind
    a leading space, then [trim_front]. *)
Definition format_index (index : list string) : list string :=
  trim_front (map (fun l => String " " (escape l)) index).

Definition max_len (strings : list string) : nat :=
  fold_right (fun s m => Nat.max (String.length s) m) 0 strings.

(** The values: each count written by [f"{x: d}"], then right-justified to
    the longest. *)
Definition format_int (n : nat) : string := String " " (PyStr.str_nat n).

Definition format_values (values : list nat) : list string :=
  let written := map format_int values in
  map (rjust (max_len written)) written.

Definition insert_at (A : Type) (n : nat) (x : A) (l : list A) : list A :=
  firstn n l ++ x :: skipn n l.

(** [adjoin(space, index, values)] for two lists of one length: each
    left-justified to its longest entry, the first with [space] more. *)
Definition adjoin (space : nat) (index values : list string) : string :=
  let wi := max_len index + space in
  let wv := max_len values in
  String.concat nl
    (map (fun p => (ljust wi (fst p) ++ ljust wv (snd p))%string)
       (combine index values)).

(** [str(series)]: beyond 60 entries the first 5 and the last 5 are shown
    around a line of dots, and the footer gives the length. *)
Definition str_Series (series : list (string * nat)) : string :=
  let n := List.length series in
  if n =? 0 then "Series([], dtype: int64)"
  else
    let truncated := 60 <? n in
    let shown := if truncated then firstn 5 series ++ skipn (n - 5) series
                 else series in
    let fmt_index := format_index (map fst shown) in
    let fmt_values := format_values (map snd shown) in
    let width := String.length (nth 4 fmt_values EmptyString) in
    let dots := center width (if 3 <? width then "..." else "..") in
    let fmt_index' := if truncated then insert_at 5 EmptyString fmt_index
                      else fmt_index in
    let fmt_values' := if truncated then insert_at 5 dots fmt_values
                       else fmt_values in
    let footer := if truncated
                  then ("Length: " ++ PyStr.str_nat n ++ ", dtype: int64")%string
                  else "dtype: int64" in
    (adjoin 3 fmt_index' fmt_values' ++ nl ++ footer)%string.

End PandasRepr.

(** [needle in hay] *)
Fixpoint contains (needle hay : string) : bool :=
  String.prefix needle hay
  || match hay with
     | String _ rest => contains needle rest
     | EmptyString => false
     end.

(** ** Notions used by the further properties *)

(** A character the normalisation leaves alone: no ASCII capital, no
    Latin-1 capital, no space. *)
Definition settled_char (c : ascii) : bool :=
  negb (PyStr.is_AZ c)
  && negb ((192 <=? PyStr.code c) && (PyStr.code c <=? 222)
           && negb (PyStr.code c =? 215))
  && negb (Ascii.eqb c " ").

(** What lines 69 and 74 together do to one cell. *)
Definition clean_cell (v : cell) : cell :=
  match v with
  | CStr text => CStr (option_map PyStr.rstrip text)
  | CDate stamp => CStr (option_map strftime_mdY stamp)
  | _ => v
  end.

(** What lines 69 and 74 together do to the data of one column. *)
Definition clean_data (s : Series) : Series :=
  match s with
  | ObjectSeries l => ObjectSeries (map (option_map PyStr.rstrip) l)
  | DatetimeSeries l => ObjectSeries (map (option_map strftime_mdY) l)
  | _ => s
  end.

(** The column types the function looks up by label with a Series
    attribute: [.unique] for the numeric ones, [.dt] for the dates. *)
Definition looked_up (c : Column) : bool :=
  existsb (dtype_eqb (dtype_of (data c))) [int64; float64; datetime64].

(** The number a string of decimal digits stands for. *)
Fixpoint digits_value_from (acc : nat) (s : string) : nat :=
  match s with
  | EmptyString => acc
  | String c rest => digits_value_from (10 * acc + (PyStr.code c - 48)) rest
  end.

Definition digits_value (s : string) : nat := digits_value_from 0 s.

(** Two numeric columns whose names normalise to the same label. *)
Definition clash_frame : DataFrame :=
  [mkColumn "UserId" (Int64Series [1; 2]%Z);
   mkColumn "user_id" (Int64Series [3; 4]%Z)].

(** ** Sample input

    Stand-ins for what pandas renders, and a frame of twelve rows, to run
    the function on. *)

Definition describe_labels (frame : DataFrame) : list string := labels frame.

Definition render_counts (counts : list (string * nat)) : string :=
  String.concat nl
    (map (fun p => (fst p ++ " " ++ PyStr.str_nat (snd p))%string) counts).

Definition render_dtypes (dtypes : list (string * dtype)) : string :=
  String.concat nl (map fst dtypes).

Definition march_5 : Timestamp := mkTimestamp 2024 3 5 0.

Definition sample_frame : DataFrame :=
  [mkColumn "EXAMPLEID" (Int64Series [1; 2; 3; 4; 5; 6; 7; 8; 9; 10; 11; 11]%Z);
   mkColumn "UserId"
     (ObjectSeries (Some " abc  " :: None :: List.repeat (Some "x ") 10));
   mkColumn "Order Date"
     (DatetimeSeries (Some march_5 :: None :: List.repeat (Some march_5) 10));
   mkColumn "Flag" (Int64Series [0; 1; 0; 1; 0; 1; 0; 1; 0; 1; 1; 1]%Z)].

(** The sample frame after renaming, and after cleaning. *)
Definition sample_renamed : DataFrame :=
  format_columns sample_frame default_exceptions.

Definition sample_cleaned : DataFrame :=
  [mkColumn "example_id" (Int64Series [1; 2; 3; 4; 5; 6; 7; 8; 9; 10; 11; 11]%Z);
   mkColumn "user_id"
     (ObjectSeries (Some " abc" :: None :: List.repeat (Some "x") 10));
   mkColumn "order__date"
     (ObjectSeries (Some "03/05/2024" :: None :: List.repeat (Some "03/05/2024") 10));
   mkColumn "flag" (Int64Series [0; 1; 0; 1; 0; 1; 0; 1; 0; 1; 1; 1]%Z)].

(** Two rows that are equal. *)
Definition twin_rows : DataFrame :=
  [mkColumn "a" (Int64Series [4; 4]%Z);
   mkColumn "b" (ObjectSeries [Some "x"; Some "x"])].

(** Three rows, one missing cell in column a, none in column b. *)
Definition one_missing : DataFrame :=
  [mkColumn "a" (ObjectSeries [Some "x"; None; Some "y"]);
   mkColumn "b" (Int64Series [1; 2; 3]%Z)].

(** One line of the listing [str] gives for a Series of counts: the label
    left-justified to the longest label and three more, the count
    right-justified to the longest count. *)
Definition series_line (wi wv : nat) (entry : string * nat) : string :=
  (PandasRepr.ljust (wi + 3) (PandasRepr.escape (fst entry))
   ++ PandasRepr.rjust wv (PandasRepr.format_int (snd entry)))%string.

(** The Series of line 52: the columns with at least one missing cell. *)
Definition missing_listed (df : DataFrame) : list (string * nat) :=
  filter (fun p => 0 <? snd p) (isnull_sum df).

(** Sixty-one text columns c01 to c61 of two rows, each with one missing
    cell, no row being empty. *)
Definition wide_frame : DataFrame :=
  map (fun k => mkColumn (String "c" (two_digits k))
                  (ObjectSeries (if Nat.even k then [Some "x"; None]
                                 else [None; Some "x"])))
    (seq 1 61).

(** The warning for [wide_frame]. *)
Definition wide_warning : string :=
  String.concat nl
    ["Warning: the following columns have missing values:";
     "c01    1"; "c02    1"; "c03    1"; "c04    1"; "c05    1";
     "      ..";
     "c57    1"; "c58    1"; "c59    1"; "c60    1"; "c61    1";
     "Length: 61, dtype: int64"].

(** Row [i] equals a row above it. *)
Definition repeats_earlier (df : DataFrame) (i : nat) : bool :=
  existsb (fun j => if row_eq_dec (row df j) (row df i) then true else false)
    (seq 0 i).

(** * Properties *)

Unset Implicit Arguments.

Example snake_case_UserId : snake_case "UserId" = "user_id".
Proof. reflexivity. Qed.

Example snake_case_spaces : snake_case "Order Date" = "order__date".
Proof. reflexivity. Qed.

Example snake_case_caps : snake_case "EXAMPLEID" = "exampleid".
Proof. reflexivity. Qed.

Example rstrip_abc : PyStr.rstrip " abc  " = " abc".
Proof. reflexivity. Qed.

Example str_nat_2024 : PyStr.str_nat 2024 = "2024".
Proof. reflexivity. Qed.

Example zero_pad_3 : PyStr.zero_pad 2 (PyStr.str_nat 3) = "03".
Proof. reflexivity. Qed.

(** ** Column names *)

Lemma rename_label_absent (old_col new_col : string) (columns : list string) :
  existsb (String.eqb old_col) columns = false ->
  rename_label old_col new_col columns = columns.
Proof.
  unfold rename_label.
  induction columns as [|c columns IH]; simpl; intros H; [reflexivity|].
  apply orb_false_iff in H. destruct H as [Hc Hrest].
  rewrite String.eqb_sym, Hc, IH by assumption. reflexivity.
Qed.

(** The second loop acts on every label on its own. *)
Lemma rename_exceptions_map (exceptions : list exception_rule) :
  forall columns, rename_exceptions exceptions columns = map (reapply exceptions) columns.
Proof.
  induction exceptions as [|[old_col new_col] rest IH]; intros columns; simpl.
  - symmetry. unfold reapply. simpl. apply map_id.
  - rewrite IH.
    destruct (existsb (String.eqb old_col) columns) eqn:Hin.
    + unfold rename_label. rewrite map_map. reflexivity.
    + rewrite <- (rename_label_absent old_col new_col columns Hin) at 1.
      unfold rename_label. rewrite map_map. reflexivity.
Qed.

Lemma format_column_names_nth (exceptions : list exception_rule)
  (columns : list string) (i : nat) (col : string) :
  nth_error columns i = Some col ->
  nth_error (format_column_names exceptions columns) i
  = Some (reapply exceptions (new_col_of exceptions col)).
Proof.
  intros H. unfold format_column_names.
  rewrite rename_exceptions_map, map_map.
  rewrite nth_error_map, H. reflexivity.
Qed.

Lemma format_column_names_length (exceptions : list exception_rule)
  (columns : list string) :
  List.length (format_column_names exceptions columns) = List.length columns.
Proof.
  unfold format_column_names.
  rewrite rename_exceptions_map. now rewrite !length_map.
Qed.

Lemma targets_of_skip (before : list exception_rule) (col : string)
  (rest : list exception_rule) :
  (forall e, In e before -> fst e <> col) ->
  targets_of (before ++ rest) col = targets_of rest col.
Proof.
  unfold targets_of.
  induction before as [|e before IH]; simpl; intros H; [reflexivity|].
  destruct (String.eqb (fst e) col) eqn:He.
  - apply String.eqb_eq in He. exfalso. apply (H e); auto.
  - apply IH. intros e' He'. apply H. now right.
Qed.

(** The first loop takes the target of the first exception whose source is
    the column name. *)
Lemma new_col_of_first_match (before after : list exception_rule)
  (col target : string) :
  (forall e, In e before -> fst e <> col) ->
  new_col_of (before ++ (col, target) :: after) col = target.
Proof.
  intros Hbefore. unfold new_col_of.
  assert (Hlen : Nat.eqb (List.length (before ++ (col, target) :: after)) 0 = false).
  { rewrite length_app. simpl. apply Nat.eqb_neq. lia. }
  assert (Hin : in_sources (before ++ (col, target) :: after) col = true).
  { unfold in_sources. apply existsb_exists. exists col. split.
    - rewrite map_app. apply in_or_app. right. now left.
    - apply String.eqb_refl. }
  rewrite Hlen, Hin. simpl.
  rewrite targets_of_skip by assumption.
  unfold targets_of. simpl. rewrite String.eqb_refl. reflexivity.
Qed.

Lemma reapply_no_source (exceptions : list exception_rule) (name : string) :
  (forall e, In e exceptions -> fst e <> name) ->
  reapply exceptions name = name.
Proof.
  unfold reapply.
  induction exceptions as [|e rest IH]; simpl; intros H; [reflexivity|].
  destruct (String.eqb name (fst e)) eqn:He.
  - apply String.eqb_eq in He. exfalso. apply (H e); auto.
  - apply IH. intros e' He'. apply H. now right.
Qed.

Lemma lowered_head_not_E (a : ascii) :
  (if Ascii.eqb (PyStr.lower_char a) " " then "_"%char else PyStr.lower_char a)
  <> "E"%char.
Proof.
  destruct a as [[|] [|] [|] [|] [|] [|] [|] [|]]; vm_compute; discriminate.
Qed.

(** No label comes out of the normalisation with a capital E in front. *)
Lemma snake_case_not_EXAMPLEID (col : string) : snake_case col <> "EXAMPLEID".
Proof.
  destruct col as [|a rest]; unfold snake_case; simpl; [discriminate|].
  intros H. injection H as Hhead _. now apply (lowered_head_not_E a).
Qed.

Lemma format_column_names_default (columns : list string) :
  format_column_names default_exceptions columns
  = map (fun c => if String.eqb c "EXAMPLEID" then "example_id" else snake_case c)
      columns.
Proof.
  unfold format_column_names.
  rewrite rename_exceptions_map, map_map.
  apply map_ext. intros c.
  unfold new_col_of, default_exceptions, in_sources, targets_of. simpl.
  rewrite orb_false_r.
  destruct (String.eqb c "EXAMPLEID") eqn:Hc.
  - apply String.eqb_eq in Hc. subst c. reflexivity.
  - unfold reapply. simpl.
    destruct (String.eqb (snake_case c) "EXAMPLEID") eqn:Hs; [|reflexivity].
    apply String.eqb_eq in Hs. now apply snake_case_not_EXAMPLEID in Hs.
Qed.

(** C4, as the code has it.  Under the exceptions [('EXAMPLEID',
    'example_id')] a column named EXAMPLEID comes out as example_id and a
    column named UserId as user_id, wherever it stands in the frame.  For any
    exceptions and any column name that is the source of one of them, the
    first loop takes the target of the first such exception; the name the
    column leaves with is that target after the second loop has tried the
    exceptions on it in order, hence the target itself when no exception has
    it for source. *)
Theorem C4_rename_rules :
  (forall columns i,
      nth_error columns i = Some "EXAMPLEID" ->
      nth_error (format_column_names default_exceptions columns) i
      = Some "example_id") /\
  (forall columns i,
      nth_error columns i = Some "UserId" ->
      nth_error (format_column_names default_exceptions columns) i
      = Some "user_id") /\
  (forall before after col target columns i,
      (forall e, In e before -> fst e <> col) ->
      nth_error columns i = Some col ->
      let exceptions := before ++ (col, target) :: after in
      new_col_of exceptions col = target /\
      nth_error (format_column_names exceptions columns) i
      = Some (reapply exceptions target) /\
      ((forall e, In e exceptions -> fst e <> target) ->
       nth_error (format_column_names exceptions columns) i = Some target)).
Proof.
  split; [|split].
  - intros columns i H.
    rewrite format_column_names_default, nth_error_map, H. reflexivity.
  - intros columns i H.
    rewrite format_column_names_default, nth_error_map, H. reflexivity.
  - intros before after col target columns i Hbefore Hi exceptions.
    assert (Hnew : new_col_of exceptions col = target)
      by (apply new_col_of_first_match; assumption).
    split; [exact Hnew|].
    assert (Hfin : nth_error (format_column_names exceptions columns) i
                   = Some (reapply exceptions target)).
    { rewrite (format_column_names_nth exceptions columns i col Hi), Hnew.
      reflexivity. }
    split; [exact Hfin|].
    intros Hfree. rewrite Hfin, reapply_no_source by assumption. reflexivity.
Qed.

(** C4 as the claim words it fails: with the exceptions [('ID', 'ID'),
    ('ID', 'ident')] both exceptions match the column ID, the first one
    keeps the name, and the column leaves as ident, the target of the
    second. *)
Lemma C4_first_rule_overridden :
  hd_error (targets_of [("ID", "ID"); ("ID", "ident")] "ID") = Some "ID" /\
  format_column_names [("ID", "ID"); ("ID", "ident")] ["ID"] = ["ident"] /\
  "ident" <> "ID".
Proof.
  split; [reflexivity|]. split; [reflexivity|]. discriminate.
Qed.

Lemma C4_rename_rules_witness :
  nth_error ["EXAMPLEID"; "UserId"] 0 = Some "EXAMPLEID" /\
  nth_error (format_column_names default_exceptions ["EXAMPLEID"; "UserId"]) 0
  = Some "example_id" /\
  nth_error (format_column_names default_exceptions ["EXAMPLEID"; "UserId"]) 1
  = Some "user_id" /\
  nth_error
    (format_column_names [("Key", "id"); ("Key", "other")] ["Name"; "Key"]) 1
  = Some "id".
Proof.
  destruct C4_rename_rules as [H1 [H2 H3]].
  split; [reflexivity|]. split; [apply H1; reflexivity|].
  split; [apply H2; reflexivity|].
  apply (H3 [] [("Key", "other")] "Key" "id" ["Name"; "Key"] 1).
  - intros e [].
  - reflexivity.
  - intros e [He|[He|[]]]; subst e; simpl; discriminate.
Defined.

(** ** First occurrences, generally *)

Section FirstOccurrencesFacts.

Variable A : Type.
Variable eq_dec : forall a b : A, {a = b} + {a <> b}.

Lemma mem_true_iff (x : A) (l : list A) : mem eq_dec x l = true <-> In x l.
Proof.
  unfold mem. destruct (in_dec eq_dec x l); split; auto; discriminate.
Qed.

Lemma mem_false_iff (x : A) (l : list A) : mem eq_dec x l = false <-> ~ In x l.
Proof.
  unfold mem. destruct (in_dec eq_dec x l); split; auto;
    [discriminate | contradiction].
Qed.

Lemma duplicated_from_length (l : list A) :
  forall seen, List.length (duplicated_from eq_dec seen l) = List.length l.
Proof.
  induction l as [|x rest IH]; intros seen; simpl; [reflexivity|].
  destruct (mem eq_dec x seen); simpl; now rewrite IH.
Qed.

(** An element is flagged when it is in the table the pass started with or
    equal to an element before it. *)
Lemma duplicated_from_flag (l : list A) :
  forall seen i,
    nth_error (duplicated_from eq_dec seen l) i = Some true <->
    exists x, nth_error l i = Some x /\
              (In x seen \/ exists j, j < i /\ nth_error l j = Some x).
Proof.
  induction l as [|x rest IH]; intros seen i.
  - simpl. split.
    + destruct i; discriminate.
    + intros [y [Hy _]]. destruct i; discriminate.
  - simpl. destruct (mem eq_dec x seen) eqn:Hmem.
    + apply mem_true_iff in Hmem. destruct i as [|i]; simpl.
      * split; [intros _; exists x; auto|reflexivity].
      * rewrite IH. split.
        -- intros [y [Hy [Hseen|[j [Hj Hnth]]]]]; exists y; split; auto.
           right. exists (S j). split; [lia|exact Hnth].
        -- intros [y [Hy [Hseen|[j [Hj Hnth]]]]]; exists y; split; auto.
           destruct j as [|j]; simpl in Hnth.
           ++ injection Hnth as <-. now left.
           ++ right. exists j. split; [lia|exact Hnth].
    + apply mem_false_iff in Hmem. destruct i as [|i]; simpl.
      * split; [discriminate|].
        intros [y [Hy [Hseen|[j [Hj _]]]]]; [|lia].
        injection Hy as <-. contradiction.
      * rewrite IH. split.
        -- intros [y [Hy [[Hx|Hseen]|[j [Hj Hnth]]]]]; exists y; split; auto.
           ++ right. exists 0. split; [lia|]. simpl. now subst.
           ++ right. exists (S j). split; [lia|exact Hnth].
        -- intros [y [Hy [Hseen|[j [Hj Hnth]]]]]; exists y; split; auto.
           ++ left. now right.
           ++ destruct j as [|j]; simpl in Hnth.
              ** injection Hnth as <-. left. now left.
              ** right. exists j. split; [lia|exact Hnth].
Qed.

Lemma unique_from_In (l : list A) :
  forall seen x, In x (unique_from eq_dec seen l) <-> In x l /\ ~ In x seen.
Proof.
  induction l as [|y rest IH]; intros seen x; simpl.
  - tauto.
  - destruct (mem eq_dec y seen) eqn:Hmem.
    + apply mem_true_iff in Hmem. rewrite IH. split.
      * tauto.
      * intros [[Hy|Hin] Hseen]; [subst; contradiction|tauto].
    + apply mem_false_iff in Hmem. simpl. rewrite IH. simpl. split.
      * intros [Hy|[Hin Hseen]]; [subst; tauto|tauto].
      * intros [[Hy|Hin] Hseen]; [now left|].
        destruct (eq_dec y x) as [Heq|Hne]; [now left|right; tauto].
Qed.

Lemma unique_from_NoDup (l : list A) :
  forall seen, NoDup (unique_from eq_dec seen l).
Proof.
  induction l as [|y rest IH]; intros seen; simpl; [constructor|].
  destruct (mem eq_dec y seen); [apply IH|].
  constructor; [|apply IH].
  rewrite unique_from_In. simpl. tauto.
Qed.

(** Values taken from [pool] give at most [length pool] distinct ones. *)
Lemma unique_from_length_le (l pool : list A) :
  incl l pool ->
  List.length (unique_from eq_dec [] l) <= List.length pool.
Proof.
  intros Hincl. apply NoDup_incl_length; [apply unique_from_NoDup|].
  intros x Hx. apply unique_from_In in Hx. apply Hincl. tauto.
Qed.

(** Distinct values [vs] that all occur give at least [length vs]. *)
Lemma unique_from_length_ge (l vs : list A) :
  NoDup vs -> incl vs l ->
  List.length vs <= List.length (unique_from eq_dec [] l).
Proof.
  intros Hnd Hincl. apply NoDup_incl_length; [exact Hnd|].
  intros x Hx. apply unique_from_In. split; [now apply Hincl|intros []].
Qed.

End FirstOccurrencesFacts.

(** ** Missing values and duplicate rows *)

Lemma rows_length (df : DataFrame) : List.length (rows df) = nrows df.
Proof. unfold rows. now rewrite length_map, length_seq. Qed.

Lemma rows_nth (df : DataFrame) (i : nat) :
  i < nrows df -> nth_error (rows df) i = Some (row df i).
Proof.
  intros Hi. unfold rows.
  rewrite nth_error_map, nth_error_seq.
  apply Nat.ltb_lt in Hi. rewrite Hi. reflexivity.
Qed.

Lemma rows_nth_inv (df : DataFrame) (i : nat) (r : list (option cell)) :
  nth_error (rows df) i = Some r -> i < nrows df /\ r = row df i.
Proof.
  intros H.
  assert (Hi : i < nrows df).
  { rewrite <- rows_length. apply nth_error_Some. congruence. }
  split; [exact Hi|]. rewrite (rows_nth df i Hi) in H. congruence.
Qed.

(** Row [i] is flagged by [duplicated] exactly when an earlier row equals it. *)
Lemma duplicated_flag (df : DataFrame) (i : nat) :
  nth_error (duplicated df) i = Some true <->
  i < nrows df /\ exists j, j < i /\ row df j = row df i.
Proof.
  unfold duplicated. rewrite duplicated_from_flag. split.
  - intros [r [Hr [[]|[j [Hj Hnth]]]]].
    apply rows_nth_inv in Hr. destruct Hr as [Hi ->].
    apply rows_nth_inv in Hnth. destruct Hnth as [_ Heq].
    split; [exact Hi|]. exists j. split; [exact Hj|]. now symmetry.
  - intros [Hi [j [Hj Heq]]]. exists (row df i). split.
    + now apply rows_nth.
    + right. exists j. split; [exact Hj|].
      rewrite rows_nth by lia. now rewrite Heq.
Qed.

(** The sum of the per-column counts is the number of missing cells. *)
Lemma isnull_sum_total (df : DataFrame) :
  sum_nat (map snd (isnull_sum df))
  = List.length (filter isnull (flat_map (fun c => cells (data c)) df)).
Proof.
  unfold isnull_sum, null_count. induction df as [|c df IH]; simpl; [reflexivity|].
  rewrite filter_app, length_app, IH. reflexivity.
Qed.

(** ** Renaming keeps the data *)

Lemma set_columns_data (df : DataFrame) :
  forall new_cols, List.length new_cols = List.length df ->
                   map data (set_columns df new_cols) = map data df.
Proof.
  unfold set_columns.
  induction df as [|c df IH]; intros [|n new_cols] Hlen; simpl in *;
    try discriminate; [reflexivity|].
  f_equal. apply IH. lia.
Qed.

Lemma set_columns_labels (df : DataFrame) :
  forall new_cols, List.length new_cols = List.length df ->
                   labels (set_columns df new_cols) = new_cols.
Proof.
  unfold set_columns, labels.
  induction df as [|c df IH]; intros [|n new_cols] Hlen; simpl in *;
    try discriminate; [reflexivity|].
  f_equal. apply IH. lia.
Qed.

Lemma format_columns_data (df : DataFrame) (exceptions : list exception_rule) :
  map data (format_columns df exceptions) = map data df.
Proof.
  apply set_columns_data.
  rewrite format_column_names_length. apply length_map.
Qed.

Lemma format_columns_labels (df : DataFrame) (exceptions : list exception_rule) :
  labels (format_columns df exceptions)
  = format_column_names exceptions (labels df).
Proof.
  apply set_columns_labels.
  rewrite format_column_names_length. apply length_map.
Qed.

Lemma nrows_data (df df' : DataFrame) :
  map data df = map data df' -> nrows df = nrows df'.
Proof.
  destruct df as [|c df], df' as [|c' df']; simpl; intros H;
    try discriminate; [reflexivity|].
  injection H as -> _. reflexivity.
Qed.

Lemma row_data (df df' : DataFrame) (i : nat) :
  map data df = map data df' -> row df i = row df' i.
Proof.
  intros H. unfold row.
  rewrite <- (map_map data (fun s => nth_error (cells s) i) df).
  rewrite <- (map_map data (fun s => nth_error (cells s) i) df').
  now rewrite H.
Qed.

Lemma rows_data (df df' : DataFrame) :
  map data df = map data df' -> rows df = rows df'.
Proof.
  intros H. unfold rows. rewrite (nrows_data _ _ H).
  apply map_ext. intros i. now apply row_data.
Qed.

Lemma isnull_sum_counts (df : DataFrame) :
  map snd (isnull_sum df) = map null_count (map data df).
Proof. unfold isnull_sum. now rewrite !map_map. Qed.

(** ** Access by label *)

Lemma labelled_In (df : DataFrame) (key : string) (c : Column) :
  In c (labelled df key) <-> In c df /\ label c = key.
Proof.
  unfold labelled. rewrite filter_In, String.eqb_eq. reflexivity.
Qed.

Lemma labelled_single (df : DataFrame) (c0 c : Column) :
  labelled df (label c) = [c0] -> In c df -> c = c0.
Proof.
  intros H Hin.
  assert (Hc : In c (labelled df (label c))) by (apply labelled_In; auto).
  rewrite H in Hc. destruct Hc as [Hc|[]]. now symmetry.
Qed.

Lemma filter_none (A : Type) (p : A -> bool) (l : list A) :
  (forall x, In x l -> p x = false) -> filter p l = [].
Proof.
  induction l as [|x l IH]; simpl; intros H; [reflexivity|].
  rewrite (H x) by now left. apply IH. intros y Hy. apply H. now right.
Qed.

Lemma labelled_NoDup (df : DataFrame) (c : Column) :
  NoDup (labels df) -> In c df -> labelled df (label c) = [c].
Proof.
  unfold labels, labelled.
  induction df as [|d df IH]; simpl; intros Hnd Hin; [contradiction|].
  inversion Hnd as [|? ? Hnotin Hnd']; subst.
  destruct Hin as [->|Hin].
  - rewrite String.eqb_refl. f_equal.
    apply filter_none.
    intros x Hx. apply String.eqb_neq. intros Heq.
    apply Hnotin. rewrite <- Heq. now apply in_map.
  - destruct (String.eqb (label d) (label c)) eqn:Hd.
    + apply String.eqb_eq in Hd. exfalso. apply Hnotin.
      rewrite Hd. now apply in_map.
    + now apply IH.
Qed.

Lemma labelled_setitem_other (df : DataFrame) (key key' : string) (s : Series) :
  key' <> key -> labelled (setitem df key s) key' = labelled df key'.
Proof.
  intros Hne. unfold labelled, setitem.
  induction df as [|c df IH]; simpl; [reflexivity|].
  destruct (String.eqb (label c) key) eqn:Hc; simpl.
  - apply String.eqb_eq in Hc.
    assert (H1 : String.eqb key key' = false)
      by (apply String.eqb_neq; congruence).
    assert (H2 : String.eqb (label c) key' = false)
      by (apply String.eqb_neq; congruence).
    now rewrite H1, H2, IH.
  - now rewrite IH.
Qed.

Lemma getitem_Ok (df : DataFrame) (key : string) (found : list Column) :
  getitem df key = Ok found -> found = labelled df key /\ found <> [].
Proof.
  unfold getitem. destruct (labelled df key) eqn:H; [discriminate|].
  intros Heq. injection Heq as <-. split; [reflexivity|discriminate].
Qed.

Lemma getitem_present (df : DataFrame) (c : Column) :
  In c df -> getitem df (label c) = Ok (labelled df (label c)).
Proof.
  intros Hin. unfold getitem.
  destruct (labelled df (label c)) eqn:H; [|reflexivity].
  assert (Hc : In c (labelled df (label c))) by (apply labelled_In; auto).
  rewrite H in Hc. contradiction.
Qed.

Lemma as_series_Ok (found : list Column) (x : Series) :
  as_series found = Ok x -> exists c, found = [c] /\ x = data c.
Proof.
  destruct found as [|c [|c' rest]]; simpl; try discriminate.
  intros H. injection H as <-. now exists c.
Qed.

(** [df[keys]] for labels of the frame: the columns each label selects, one
    label after the other. *)
Lemma getitem_list_present (df : DataFrame) (l : list Column) :
  (forall c, In c l -> In c df) ->
  getitem_list df (map label l) = Ok (flat_map (labelled df) (map label l)).
Proof.
  unfold getitem_list.
  induction l as [|c l IH]; intros Hin; simpl; [reflexivity|].
  rewrite getitem_present by (apply Hin; now left). simpl.
  specialize (IH (fun c' H => Hin c' (or_intror H))).
  destruct (mapM (getitem df) (map label l)) as [e|parts]; simpl in *;
    [discriminate|].
  injection IH as IH. now rewrite IH.
Qed.

Lemma flat_map_labelled_single (df : DataFrame) (l : list Column) :
  (forall c, In c l -> labelled df (label c) = [c]) ->
  flat_map (labelled df) (map label l) = l.
Proof.
  induction l as [|c l IH]; intros H; simpl; [reflexivity|].
  rewrite H by now left. simpl. f_equal. apply IH.
  intros c' Hc'. apply H. now right.
Qed.

Lemma flat_map_labelled_length (df : DataFrame) (l : list Column) :
  (forall c, In c l -> In c df) ->
  List.length l <= List.length (flat_map (labelled df) (map label l)).
Proof.
  induction l as [|c l IH]; intros Hin; simpl; [lia|].
  rewrite length_app.
  assert (Hc : In c (labelled df (label c)))
    by (apply labelled_In; split; [apply Hin; now left|reflexivity]).
  destruct (labelled df (label c)); [contradiction|]. simpl.
  specialize (IH (fun c' H => Hin c' (or_intror H))). lia.
Qed.

(** When the selection has as many columns as there are labels, every label
    selects its own column and nothing else. *)
Lemma flat_map_labelled_exact (df : DataFrame) (l : list Column) :
  (forall c, In c l -> In c df) ->
  List.length (flat_map (labelled df) (map label l)) = List.length l ->
  forall c, In c l -> labelled df (label c) = [c].
Proof.
  induction l as [|d l IH]; intros Hin Hlen c Hc; [contradiction|].
  simpl in Hlen. rewrite length_app in Hlen.
  assert (Hd : In d (labelled df (label d)))
    by (apply labelled_In; split; [apply Hin; now left|reflexivity]).
  pose proof (flat_map_labelled_length df l
                (fun c' H => Hin c' (or_intror H))) as Hge.
  destruct (labelled df (label d)) as [|d0 [|d1 rest]] eqn:Hlab;
    [contradiction| |simpl in Hlen; lia].
  destruct Hc as [<-|Hc].
  - destruct Hd as [->|[]]. exact Hlab.
  - apply IH; [intros c' H; apply Hin; now right|simpl in Hlen; lia|exact Hc].
Qed.

(** ** Assignment through a list of labels *)

Section SetitemPairs.

Variable G : Column -> Column.
Hypothesis G_label : forall c, label (G c) = label c.
Hypothesis G_idem : forall c, G (G c) = G c.

Lemma setitem_as_G (df : DataFrame) (key : string) (s : Series) :
  (forall c, In c df -> label c = key -> data (G c) = s) ->
  setitem df key s
  = map (fun c => if String.eqb (label c) key then G c else c) df.
Proof.
  intros H. unfold setitem. apply map_ext_in. intros c Hc.
  destruct (String.eqb (label c) key) eqn:Hk; [|reflexivity].
  apply String.eqb_eq in Hk.
  specialize (H c Hc Hk). specialize (G_label c).
  destruct (G c) as [lbl dat]. simpl in *. congruence.
Qed.

(** Assigning, label by label, what [G] makes of the column so labelled
    amounts to running [G] over the columns that carry one of the labels. *)
Lemma setitem_pairs_closed (pairs : list (string * Column)) :
  forall df,
    (forall key c2 c, In (key, c2) pairs -> In c df -> label c = key ->
                      data (G c) = data c2) ->
    setitem_pairs df pairs
    = map (fun c => if existsb (String.eqb (label c)) (map fst pairs)
                    then G c else c) df.
Proof.
  induction pairs as [|[k c2] rest IH]; intros df H; simpl.
  - symmetry. apply map_id.
  - rewrite (setitem_as_G df k (data c2))
      by (intros c Hc Hk; apply (H k c2 c); auto; now left).
    rewrite IH.
    + rewrite map_map. apply map_ext. intros c.
      destruct (String.eqb (label c) k) eqn:Hk; simpl.
      * rewrite G_label, G_idem.
        now destruct (existsb (String.eqb (label c)) (map fst rest)).
      * reflexivity.
    + intros key c2' c1 Hin Hc1 Hlab.
      apply in_map_iff in Hc1. destruct Hc1 as [c [Hc1 Hc]].
      destruct (String.eqb (label c) k) eqn:Hk.
      * subst c1. rewrite G_idem. rewrite G_label in Hlab.
        apply (H key c2' c); auto. now right.
      * subst c1. apply (H key c2' c); auto. now right.
Qed.

Lemma combine_labelled_single (df : DataFrame) (l : list Column) :
  (forall c, In c l -> labelled df (label c) = [c]) ->
  forall key c2,
    In (key, c2) (combine (map label l) (map G l)) ->
    exists c, In c l /\ key = label c /\ c2 = G c.
Proof.
  induction l as [|d l IH]; intros H key c2 Hin; simpl in Hin; [contradiction|].
  destruct Hin as [Heq|Hin].
  - injection Heq as <- <-. exists d. split; [now left|auto].
  - destruct (IH (fun c Hc => H c (or_intror Hc)) key c2 Hin) as [c [Hc Hrest]].
    exists c. split; [now right|exact Hrest].
Qed.

End SetitemPairs.

(** ** Line 69: trailing whitespace *)

Lemma rstrip_column_label (c : Column) : label (rstrip_column c) = label c.
Proof. unfold rstrip_column. now destruct (data c). Qed.

Lemma rstrip_cons (c : ascii) (s : string) :
  PyStr.rstrip (String c s)
  = match PyStr.rstrip s with
    | EmptyString => if PyStr.is_space c then EmptyString else String c EmptyString
    | kept => String c kept
    end.
Proof. reflexivity. Qed.

Lemma rstrip_idem (s : string) : PyStr.rstrip (PyStr.rstrip s) = PyStr.rstrip s.
Proof.
  induction s as [|c s IH]; [reflexivity|].
  rewrite (rstrip_cons c s).
  destruct (PyStr.rstrip s) as [|k kept] eqn:Hs.
  - destruct (PyStr.is_space c) eqn:Hc; [reflexivity|].
    simpl. now rewrite Hc.
  - rewrite rstrip_cons, IH. reflexivity.
Qed.

Lemma rstrip_column_idem (c : Column) :
  rstrip_column (rstrip_column c) = rstrip_column c.
Proof.
  unfold rstrip_column. destruct c as [lbl [l|l|l|l|l]]; simpl; try reflexivity.
  rewrite map_map. do 2 f_equal. apply map_ext.
  intros [s|]; simpl; [|reflexivity]. now rewrite rstrip_idem.
Qed.

Lemma apply_rstrip_lambda (frame : DataFrame) :
  apply rstrip_lambda frame = Ok (map rstrip_column frame).
Proof.
  unfold apply. induction frame as [|c frame IH]; simpl; [reflexivity|].
  rewrite IH. destruct c as [lbl [l|l|l|l|l]]; reflexivity.
Qed.

Lemma select_dtypes_In (include : list dtype) (df : DataFrame) (c : Column) :
  In c (select_dtypes include df) -> In c df.
Proof. unfold select_dtypes. rewrite filter_In. tauto. Qed.

Lemma map_fst_combine_maps (A B C : Type) (f : A -> B) (g : A -> C) (l : list A) :
  map fst (combine (map f l) (map g l)) = map f l.
Proof. induction l as [|x l IH]; simpl; [reflexivity|now rewrite IH]. Qed.

(** When line 69 goes through, it has stripped every text column and left
    the others as they were. *)
Lemma rstrip_string_columns_Ok (df df' : DataFrame) :
  rstrip_string_columns df = Ok df' -> df' = map rstrip_column df.
Proof.
  unfold rstrip_string_columns, labels.
  rewrite (getitem_list_present df (select_dtypes [object] df))
    by (apply select_dtypes_In).
  simpl. rewrite apply_rstrip_lambda. simpl. unfold setitem_list.
  rewrite !length_map.
  destruct (Nat.eqb _ _) eqn:Hlen; [|discriminate].
  apply Nat.eqb_eq in Hlen. intros H. injection H as <-.
  pose proof (flat_map_labelled_exact df (select_dtypes [object] df)
                (select_dtypes_In [object] df) Hlen) as Hsingle.
  rewrite (flat_map_labelled_single _ _ Hsingle).
  rewrite (setitem_pairs_closed rstrip_column rstrip_column_label
             rstrip_column_idem).
  - apply map_ext_in. intros c Hc.
    destruct (existsb _ _) eqn:Hex; [reflexivity|].
    unfold rstrip_column. destruct (data c) as [l|l|l|l|l] eqn:Hd; try reflexivity.
    exfalso.
    assert (Habs : existsb (String.eqb (label c))
                     (map fst (combine (map label (select_dtypes [object] df))
                                 (map rstrip_column (select_dtypes [object] df))))
                   = true).
    { apply existsb_exists. exists (label c). split; [|apply String.eqb_refl].
      rewrite map_fst_combine_maps. apply in_map.
      unfold select_dtypes. apply filter_In. split; [exact Hc|].
      rewrite Hd. reflexivity. }
    congruence.
  - intros key c2 c Hin Hc Hlab.
    destruct (combine_labelled_single rstrip_column df _ Hsingle _ _ Hin)
      as [c0 [Hc0 [Hkey ->]]].
    assert (Heq : c = c0).
    { apply (labelled_single df c0 c); [|exact Hc].
      rewrite Hlab, Hkey. now apply Hsingle. }
    now subst c.
Qed.

(** Selecting columns by type keeps labels that do not repeat apart. *)
Lemma select_dtypes_labels_NoDup (include : list dtype) (df : DataFrame) :
  NoDup (labels df) -> NoDup (labels (select_dtypes include df)).
Proof.
  unfold labels, select_dtypes.
  induction df as [|c df IH]; simpl; intros Hnd; [constructor|].
  inversion Hnd as [|? ? Hfresh Hrest]; subst.
  destruct (existsb (dtype_eqb (dtype_of (data c))) include); simpl; auto.
  constructor; auto.
  rewrite in_map_iff. intros [d [Hd Hin]]. apply filter_In in Hin.
  apply Hfresh. rewrite <- Hd. apply in_map. tauto.
Qed.

(** With labels that do not repeat, line 69 goes through. *)
Lemma rstrip_string_columns_NoDup (df : DataFrame) :
  NoDup (labels df) -> rstrip_string_columns df = Ok (map rstrip_column df).
Proof.
  intros Hnd.
  destruct (rstrip_string_columns df) as [e|df'] eqn:H.
  - exfalso. revert H. unfold rstrip_string_columns, labels.
    rewrite (getitem_list_present df (select_dtypes [object] df))
      by (apply select_dtypes_In).
    simpl. rewrite apply_rstrip_lambda. simpl. unfold setitem_list.
    rewrite flat_map_labelled_single.
    + rewrite !length_map, Nat.eqb_refl. discriminate.
    + intros c Hc. apply labelled_NoDup; [exact Hnd|].
      now apply select_dtypes_In in Hc.
  - apply rstrip_string_columns_Ok in H. now subst.
Qed.

(** ** Lines 72 to 74: dates *)

Lemma strftime_column_label (c : Column) : label (strftime_column c) = label c.
Proof. unfold strftime_column. now destruct (data c). Qed.

Lemma strftime_column_idem (c : Column) :
  strftime_column (strftime_column c) = strftime_column c.
Proof. unfold strftime_column. now destruct c as [lbl [l|l|l|l|l]]. Qed.

Lemma dt_strftime_Ok (x y : Series) :
  dt_strftime x = Ok y ->
  exists l, x = DatetimeSeries l /\
            y = ObjectSeries (map (option_map strftime_mdY) l).
Proof.
  destruct x as [l|l|l|l|l]; simpl; try discriminate.
  intros H. injection H as <-. now exists l.
Qed.

Lemma convert_dates_Ok (date_cols : list string) :
  forall df df',
    convert_dates date_cols df = Ok df' ->
    df' = map (fun c => if existsb (String.eqb (label c)) date_cols
                        then strftime_column c else c) df.
Proof.
  induction date_cols as [|col rest IH]; intros df df' H; simpl in H.
  - injection H as <-. symmetry. apply map_id.
  - destruct (getitem df col) as [e|found] eqn:Hget; [discriminate|].
    simpl in H.
    destruct (as_series found) as [e|x] eqn:Hser; [discriminate|].
    simpl in H.
    destruct (dt_strftime x) as [e|y] eqn:Hfmt; [discriminate|].
    simpl in H.
    apply getitem_Ok in Hget. destruct Hget as [-> _].
    apply as_series_Ok in Hser. destruct Hser as [c0 [Hlab ->]].
    apply dt_strftime_Ok in Hfmt. destruct Hfmt as [l [Hdata ->]].
    apply IH in H. subst df'.
    rewrite (setitem_as_G strftime_column strftime_column_label df col
               (ObjectSeries (map (option_map strftime_mdY) l))).
    + rewrite map_map. apply map_ext. intros c. simpl.
      destruct (String.eqb (label c) col) eqn:Hk; simpl.
      * rewrite strftime_column_label, strftime_column_idem.
        now destruct (existsb (String.eqb (label c)) rest).
      * reflexivity.
    + intros c Hc Hk.
      assert (Heq : c = c0).
      { apply (labelled_single df c0 c); [|exact Hc]. now rewrite Hk. }
      subst c. unfold strftime_column. now rewrite Hdata.
Qed.

(** When the loop of lines 73 and 74 goes through, it has formatted every
    date column and left the others as they were. *)
Lemma convert_date_columns_Ok (df df' : DataFrame) :
  convert_date_columns df = Ok df' -> df' = map strftime_column df.
Proof.
  unfold convert_date_columns. intros H.
  apply convert_dates_Ok in H. subst df'.
  apply map_ext_in. intros c Hc.
  destruct (existsb _ _) eqn:Hex; [reflexivity|].
  unfold strftime_column. destruct (data c) as [l|l|l|l|l] eqn:Hd; try reflexivity.
  exfalso.
  assert (Habs : existsb (String.eqb (label c))
                   (labels (select_dtypes [datetime64] df)) = true).
  { apply existsb_exists. exists (label c). split; [|apply String.eqb_refl].
    unfold labels. apply in_map. unfold select_dtypes. apply filter_In.
    split; [exact Hc|]. now rewrite Hd. }
  congruence.
Qed.

Lemma convert_dates_total (date_cols : list string) :
  forall df,
    NoDup date_cols ->
    (forall col, In col date_cols ->
                 exists c l, labelled df col = [c] /\ data c = DatetimeSeries l) ->
    exists df', convert_dates date_cols df = Ok df'.
Proof.
  induction date_cols as [|col rest IH]; intros df Hnd H; simpl.
  - now exists df.
  - destruct (H col (or_introl eq_refl)) as [c [l [Hlab Hdata]]].
    unfold getitem. rewrite Hlab. simpl. rewrite Hdata. simpl.
    inversion Hnd as [|? ? Hnotin Hnd']; subst.
    apply IH; [exact Hnd'|].
    intros col' Hcol'.
    rewrite labelled_setitem_other by (intros ->; contradiction).
    apply H. now right.
Qed.

(** With labels that do not repeat, the loop goes through. *)
Lemma convert_date_columns_NoDup (df : DataFrame) :
  NoDup (labels df) -> convert_date_columns df = Ok (map strftime_column df).
Proof.
  intros Hnd.
  destruct (convert_dates_total (labels (select_dtypes [datetime64] df)) df)
    as [df' H].
  - now apply select_dtypes_labels_NoDup.
  - intros col Hcol. unfold labels in Hcol. apply in_map_iff in Hcol.
    destruct Hcol as [c [<- Hc]]. unfold select_dtypes in Hc.
    apply filter_In in Hc. destruct Hc as [Hc Hty].
    destruct (data c) as [l|l|l|l|l] eqn:Hd; try discriminate.
    exists c, l. split; [now apply labelled_NoDup|exact Hd].
  - fold (convert_date_columns df) in H. rewrite H. f_equal.
    now apply convert_date_columns_Ok.
Qed.

(** ** Lines 77 to 103: the selection, the plots and the summary *)

Lemma filter_filter (A : Type) (p q : A -> bool) (l : list A) :
  filter q (filter p l) = filter (fun x => p x && q x) l.
Proof.
  induction l as [|x l IH]; simpl; [reflexivity|].
  destruct (p x); simpl; [destruct (q x)|]; now rewrite IH.
Qed.

Lemma outlier_selection_numeric (df : DataFrame) :
  outlier_selection df
  = filter (fun c => 10 <? nunique (data c)) (select_dtypes [int64; float64] df).
Proof. unfold outlier_selection, select_dtypes. now rewrite filter_filter. Qed.

Lemma outlier_selection_In (df : DataFrame) (c : Column) :
  In c (outlier_selection df) <->
  In c df /\ is_numeric c = true /\ 10 < nunique (data c).
Proof.
  unfold outlier_selection.
  rewrite filter_In, andb_true_iff, Nat.ltb_lt. reflexivity.
Qed.

Lemma more_than_10_unique_single (df : DataFrame) (c : Column) :
  labelled df (label c) = [c] ->
  more_than_10_unique df (label c) = Ok (10 <? nunique (data c)).
Proof.
  intros H. unfold more_than_10_unique, getitem. rewrite H. reflexivity.
Qed.

Lemma more_than_10_unique_Ok (df : DataFrame) (c : Column) (b : bool) :
  In c df -> more_than_10_unique df (label c) = Ok b ->
  labelled df (label c) = [c].
Proof.
  intros Hin. unfold more_than_10_unique.
  rewrite (getitem_present df c Hin). simpl.
  destruct (as_series (labelled df (label c))) as [e|x] eqn:Hser; [discriminate|].
  intros _. apply as_series_Ok in Hser. destruct Hser as [c0 [Hlab _]].
  rewrite Hlab. f_equal. symmetry. now apply (labelled_single df c0 c).
Qed.

(** When the comprehension of line 81 goes through, every label it looked up
    selects one column, and the labels kept are those of the columns with
    more than 10 distinct values. *)
Lemma filterM_more_than_10_Ok (df : DataFrame) (l : list Column) :
  (forall c, In c l -> In c df) ->
  forall kept,
    filterM (more_than_10_unique df) (map label l) = Ok kept ->
    kept = map label (filter (fun c => 10 <? nunique (data c)) l) /\
    (forall c, In c l -> labelled df (label c) = [c]).
Proof.
  induction l as [|c l IH]; intros Hin kept H; simpl in H.
  - injection H as <-. split; [reflexivity|intros c []].
  - destruct (more_than_10_unique df (label c)) as [e|b] eqn:Hb; [discriminate|].
    simpl in H.
    destruct (filterM (more_than_10_unique df) (map label l)) as [e|r] eqn:Hr;
      [discriminate|].
    simpl in H. injection H as <-.
    pose proof (more_than_10_unique_Ok df c b (Hin c (or_introl eq_refl)) Hb)
      as Hsingle.
    rewrite (more_than_10_unique_single df c Hsingle) in Hb.
    injection Hb as <-.
    destruct (IH (fun c' H => Hin c' (or_intror H)) r eq_refl) as [-> Hrest].
    split.
    + simpl. now destruct (10 <? nunique (data c)).
    + intros c' [<-|Hc']; [exact Hsingle|now apply Hrest].
Qed.

Lemma filterM_more_than_10_single (df : DataFrame) (l : list Column) :
  (forall c, In c l -> labelled df (label c) = [c]) ->
  filterM (more_than_10_unique df) (map label l)
  = Ok (map label (filter (fun c => 10 <? nunique (data c)) l)).
Proof.
  induction l as [|c l IH]; intros H; simpl; [reflexivity|].
  rewrite (more_than_10_unique_single df c (H c (or_introl eq_refl))). simpl.
  rewrite IH by (intros c' Hc'; apply H; now right). simpl.
  now destruct (10 <? nunique (data c)).
Qed.

Lemma getitem_list_single (df : DataFrame) (l : list Column) :
  (forall c, In c l -> labelled df (label c) = [c]) ->
  getitem_list df (map label l) = Ok l.
Proof.
  intros H. rewrite getitem_list_present.
  - now rewrite flat_map_labelled_single.
  - intros c Hc.
    assert (Hin : In c (labelled df (label c))) by (rewrite H; [now left|exact Hc]).
    now apply labelled_In in Hin.
Qed.

Lemma is_empty_length (A : Type) (l : list A) :
  (0 <? List.length l) = negb (match l with [] => true | _ => false end).
Proof. now destruct l. Qed.

Lemma box_plot_single (df : DataFrame) :
  (forall c, In c (select_dtypes [int64; float64] df) ->
             labelled df (label c) = [c]) ->
  box_plot df (labels (select_dtypes [int64; float64] df))
  = Ok (match select_dtypes [int64; float64] df with
        | [] => ([], None, [])
        | _ => (labels (outlier_selection df),
                Some ("Box plot of data values for "
                      ++ String.concat ", " (labels (outlier_selection df)))%string,
                box_calls (outlier_selection df))
        end).
Proof.
  intros H. unfold box_plot, labels.
  rewrite length_map, is_empty_length.
  destruct (select_dtypes [int64; float64] df) as [|c0 sel] eqn:Hsel;
    [reflexivity|].
  cbn [negb]. rewrite (filterM_more_than_10_single df (c0 :: sel) H).
  cbn [bind Ok]. rewrite outlier_selection_numeric, Hsel.
  rewrite getitem_list_single; [reflexivity|].
  intros c Hc. apply H. apply filter_In in Hc. tauto.
Qed.

Lemma dist_plots_single (df : DataFrame) (selection : list Column) :
  (forall c, In c selection -> labelled df (label c) = [c]) ->
  dist_plots df (labels selection)
  = Ok (match selection with
        | [] => (None, [])
        | _ => (Some "Distribution plots for numerical columns",
                flat_map dist_calls selection)
        end).
Proof.
  intros H. unfold dist_plots, labels.
  rewrite length_map, is_empty_length.
  assert (Hcalls : mapM (fun col =>
                           found <- getitem df col ;;
                           Ok [sns_distplot found;
                               plt_title ("Distribution of " ++ col)%string;
                               plt_show])
                     (map label selection)
                   = Ok (map dist_calls selection)).
  { clear - H. induction selection as [|c l IH]; [reflexivity|].
    cbn [map mapM]. unfold getitem at 1.
    rewrite (H c (or_introl eq_refl)). cbn [bind Ok].
    rewrite IH by (intros c' Hc'; apply H; now right). reflexivity. }
  destruct selection as [|c0 sel]; [reflexivity|].
  cbn [negb]. rewrite Hcalls. cbn [bind Ok].
  now rewrite flat_map_concat_map.
Qed.

Lemma box_plot_Ok (df : DataFrame)
  (boxed : list string * option string * list plot_call) :
  box_plot df (labels (select_dtypes [int64; float64] df)) = Ok boxed ->
  forall c, In c (select_dtypes [int64; float64] df) ->
            labelled df (label c) = [c].
Proof.
  unfold box_plot, labels. rewrite length_map, is_empty_length.
  destruct (select_dtypes [int64; float64] df) as [|c0 sel] eqn:Hsel;
    [intros _ c []|].
  cbn [negb].
  destruct (filterM (more_than_10_unique df) (map label (c0 :: sel)))
    as [e|kept] eqn:Hkept; [discriminate|].
  intros _.
  apply filterM_more_than_10_Ok in Hkept; [tauto|].
  intros c Hc. apply (select_dtypes_In [int64; float64] df).
  now rewrite Hsel.
Qed.

Lemma outlier_selection_labelled (df : DataFrame) :
  (forall c, In c (select_dtypes [int64; float64] df) ->
             labelled df (label c) = [c]) ->
  forall c, In c (outlier_selection df) -> labelled df (label c) = [c].
Proof.
  intros H c Hc. apply H. rewrite outlier_selection_numeric in Hc.
  apply filter_In in Hc. tauto.
Qed.

Lemma cleaned_labels (df : DataFrame) : labels (cleaned df) = labels df.
Proof.
  unfold cleaned, labels. rewrite !map_map. apply map_ext. intros c.
  now rewrite strftime_column_label, rstrip_column_label.
Qed.

(** ** The whole function *)

Section PipelineFacts.

Variable Summary : Type.
Variable describe : DataFrame -> Summary.
Variable str_counts : list (string * nat) -> string.
Variable str_dtypes : list (string * dtype) -> string.

Lemma summary_single (df : DataFrame) (selection : list Column) :
  (forall c, In c selection -> labelled df (label c) = [c]) ->
  summary describe df (labels selection)
  = Ok (match selection with
        | [] => None
        | _ => Some (describe selection)
        end).
Proof.
  intros H. unfold summary, labels.
  rewrite length_map, is_empty_length.
  destruct selection as [|c0 sel]; [reflexivity|].
  cbn [negb]. now rewrite (getitem_list_single df _ H).
Qed.

(** Once lines 69 and 74 are through and every numeric label selects one
    column, the rest of the function runs to its end. *)
Lemma analyze_tail (read_excel : DataFrame) (exceptions : list exception_rule) :
  let df := format_columns read_excel exceptions in
  rstrip_string_columns df = Ok (map rstrip_column df) ->
  convert_date_columns (map rstrip_column df) = Ok (cleaned df) ->
  (forall c, In c (select_dtypes [int64; float64] (cleaned df)) ->
             labelled (cleaned df) (label c) = [c]) ->
  analyze_and_clean_excel_file describe str_counts str_dtypes read_excel exceptions
  = Ok (outcome describe str_counts str_dtypes read_excel exceptions).
Proof.
  intros df Hstrip Hdates Hsingle.
  unfold analyze_and_clean_excel_file. fold df.
  rewrite Hstrip. cbn [bind Ok]. rewrite Hdates. cbn [bind Ok].
  rewrite (box_plot_single _ Hsingle).
  unfold outcome. fold df.
  pose proof (outlier_selection_labelled _ Hsingle) as Hsel.
  pose proof (outlier_selection_numeric (cleaned df)) as Hnum.
  destruct (select_dtypes [int64; float64] (cleaned df)) as [|c0 sel] eqn:Hn.
  - simpl in Hnum. rewrite Hnum. reflexivity.
  - cbn [bind Ok fst snd].
    rewrite (dist_plots_single _ _ Hsel). cbn [bind Ok fst snd].
    rewrite (summary_single _ _ Hsel). cbn [bind Ok fst snd].
    now destruct (outlier_selection (cleaned df)).
Qed.

(** Whenever the function returns, it returns [outcome]. *)
Lemma analyze_Ok (read_excel : DataFrame) (exceptions : list exception_rule)
  (out : DataFrame * Report Summary * list plot_call) :
  analyze_and_clean_excel_file describe str_counts str_dtypes read_excel exceptions
  = Ok out ->
  out = outcome describe str_counts str_dtypes read_excel exceptions.
Proof.
  intros H. pose proof H as H0. revert H0.
  unfold analyze_and_clean_excel_file.
  set (df := format_columns read_excel exceptions).
  destruct (rstrip_string_columns df) as [e|df1] eqn:Hstrip; [discriminate|].
  cbn [bind].
  destruct (convert_date_columns df1) as [e|df2] eqn:Hdates; [discriminate|].
  cbn [bind].
  destruct (box_plot df2 (labels (select_dtypes [int64; float64] df2)))
    as [e|boxed] eqn:Hbox; [discriminate|].
  intros _.
  pose proof (rstrip_string_columns_Ok _ _ Hstrip) as E1. subst df1.
  pose proof (convert_date_columns_Ok _ _ Hdates) as E2. subst df2.
  fold (cleaned df) in *.
  pose proof (box_plot_Ok _ _ Hbox) as Hsingle.
  rewrite (analyze_tail read_excel exceptions Hstrip Hdates Hsingle) in H.
  now injection H.
Qed.

(** The function returns whenever the labels it gave the frame do not
    repeat. *)
Lemma analyze_NoDup (read_excel : DataFrame) (exceptions : list exception_rule) :
  NoDup (format_column_names exceptions (labels read_excel)) ->
  analyze_and_clean_excel_file describe str_counts str_dtypes read_excel exceptions
  = Ok (outcome describe str_counts str_dtypes read_excel exceptions).
Proof.
  intros Hnd. rewrite <- format_columns_labels in Hnd.
  apply analyze_tail.
  - now apply rstrip_string_columns_NoDup.
  - apply convert_date_columns_NoDup.
    unfold labels. rewrite map_map.
    erewrite map_ext; [exact Hnd|].
    intros c. apply rstrip_column_label.
  - intros c Hc. apply labelled_NoDup.
    + now rewrite cleaned_labels.
    + now apply select_dtypes_In in Hc.
Qed.

End PipelineFacts.

(** ** Claims on the quality checks *)

Lemma bool_lists_equal (l l' : list bool) :
  List.length l = List.length l' ->
  (forall i, nth_error l i = Some true <-> nth_error l' i = Some true) ->
  l = l'.
Proof.
  revert l'. induction l as [|b l IH]; intros [|b' l'] Hlen H; simpl in Hlen;
    try discriminate; [reflexivity|].
  f_equal.
  - specialize (H 0). simpl in H. destruct b, b'; try reflexivity.
    + destruct H as [H _]. specialize (H eq_refl). discriminate.
    + destruct H as [_ H]. specialize (H eq_refl). discriminate.
  - apply IH; [lia|]. intros i. apply (H (S i)).
Qed.

Lemma repeats_earlier_true (df : DataFrame) (i : nat) :
  repeats_earlier df i = true <-> exists j, j < i /\ row df j = row df i.
Proof.
  unfold repeats_earlier. rewrite existsb_exists. split.
  - intros [j [Hj Heq]]. apply in_seq in Hj.
    destruct (row_eq_dec (row df j) (row df i)); [|discriminate].
    exists j. split; [lia|assumption].
  - intros [j [Hj Heq]]. exists j. split; [apply in_seq; lia|].
    destruct (row_eq_dec (row df j) (row df i)); [reflexivity|contradiction].
Qed.

(** The flags of [duplicated], row by row. *)
Lemma duplicated_repeats (df : DataFrame) :
  duplicated df = map (repeats_earlier df) (seq 0 (nrows df)).
Proof.
  apply bool_lists_equal.
  - unfold duplicated. now rewrite duplicated_from_length, rows_length,
      length_map, length_seq.
  - intros i. rewrite duplicated_flag, nth_error_map, nth_error_seq.
    destruct (i <? nrows df) eqn:Hi.
    + apply Nat.ltb_lt in Hi. simpl. rewrite <- repeats_earlier_true. split.
      * intros [_ H]. now rewrite H.
      * intros H. injection H as H. auto.
    + apply Nat.ltb_ge in Hi. simpl. split; [intros [H _]; lia|discriminate].
Qed.

Lemma filter_eqb_seq (n b : nat) :
  List.length (filter (fun i => i =? b) (seq 0 n)) = if b <? n then 1 else 0.
Proof.
  induction n as [|n IH]; [reflexivity|].
  rewrite seq_S, filter_app, length_app, IH. simpl.
  destruct (n =? b) eqn:Hnb.
  - apply Nat.eqb_eq in Hnb. subst b.
    rewrite Nat.ltb_irrefl.
    assert (H : (n <? S n) = true) by (apply Nat.ltb_lt; lia).
    now rewrite H.
  - apply Nat.eqb_neq in Hnb. simpl.
    destruct (b <? n) eqn:Hbn.
    + apply Nat.ltb_lt in Hbn.
      assert (H : (b <? S n) = true) by (apply Nat.ltb_lt; lia).
      now rewrite H.
    + apply Nat.ltb_ge in Hbn.
      assert (H : (b <? S n) = false) by (apply Nat.ltb_ge; lia).
      now rewrite H.
Qed.

Lemma sum_bool_map (A : Type) (f : A -> bool) (l : list A) :
  sum_bool (map f l) = List.length (filter f l).
Proof.
  unfold sum_bool. induction l as [|x l IH]; simpl; [reflexivity|].
  destruct (f x); simpl; now rewrite IH.
Qed.

Lemma total_nulls_data (df df' : DataFrame) :
  map data df = map data df' ->
  sum_nat (map snd (isnull_sum df)) = sum_nat (map snd (isnull_sum df')).
Proof. intros H. now rewrite !isnull_sum_counts, H. Qed.

Section QualityClaims.

Variable Summary : Type.
Variable describe : DataFrame -> Summary.
Variable str_counts : list (string * nat) -> string.
Variable str_dtypes : list (string * dtype) -> string.

(** The missing-value result, whatever [str] makes of the Series: [None]
    exactly when no cell is missing; otherwise the heading and [str] of the
    Series of the columns with at least one missing cell, each with its
    count.  The entry of the returned dictionary is this result, taken on
    the renamed frame. *)
Lemma missing_values_listing :
  (forall df,
      (check_missing_values str_counts df = None <->
       List.length (filter isnull (flat_map (fun c => cells (data c)) df)) = 0) /\
      (forall w,
          check_missing_values str_counts df = Some w ->
          exists listed,
            w = ("Warning: the following columns have missing values:" ++ nl
                 ++ str_counts listed)%string /\
            forall name n,
              In (name, n) listed <->
              0 < n /\ exists c, In c df /\ label c = name /\
                                 null_count (data c) = n)) /\
  (forall a b,
      null_count a = 1 -> null_count b = 0 ->
      check_missing_values str_counts [mkColumn "a" a; mkColumn "b" b]
      = Some ("Warning: the following columns have missing values:" ++ nl
              ++ str_counts [("a", 1)])%string) /\
  (forall read_excel exceptions out,
      analyze_and_clean_excel_file describe str_counts str_dtypes
        read_excel exceptions = Ok out ->
      missing_values_warning (snd (fst out))
      = check_missing_values str_counts (format_columns read_excel exceptions) /\
      (missing_values_warning (snd (fst out)) = None <->
       List.length (filter isnull
                      (flat_map (fun c => cells (data c)) read_excel)) = 0)).
Proof.
  assert (Hnone : forall df,
             check_missing_values str_counts df = None <->
             List.length (filter isnull
                            (flat_map (fun c => cells (data c)) df)) = 0).
  { intros df. unfold check_missing_values.
    rewrite <- isnull_sum_total.
    destruct (0 <? sum_nat (map snd (isnull_sum df))) eqn:Hpos.
    - apply Nat.ltb_lt in Hpos. split; [discriminate|lia].
    - apply Nat.ltb_ge in Hpos. split; [lia|reflexivity]. }
  split; [|split].
  - intros df. split; [apply Hnone|].
    intros w. unfold check_missing_values.
    destruct (0 <? sum_nat (map snd (isnull_sum df))); [|discriminate].
    intros H. injection H as <-.
    exists (filter (fun p => 0 <? snd p) (isnull_sum df)).
    split; [reflexivity|].
    intros name n. rewrite filter_In. simpl. rewrite Nat.ltb_lt.
    unfold isnull_sum. rewrite in_map_iff. split.
    + intros [[c [Hc Hin]] Hn]. injection Hc as <- <-.
      split; [exact Hn|]. now exists c.
    + intros [Hn [c [Hin [<- <-]]]]. split; [|exact Hn]. now exists c.
  - intros a b Ha Hb. unfold check_missing_values, isnull_sum. simpl.
    rewrite Ha, Hb. reflexivity.
  - intros read_excel exceptions out H.
    apply analyze_Ok in H. subst out. simpl. split; [reflexivity|].
    rewrite Hnone, <- !isnull_sum_total.
    rewrite (total_nulls_data _ read_excel
               (format_columns_data read_excel exceptions)).
    reflexivity.
Qed.

(** C7.  [duplicated] flags exactly the rows equal, cell for cell, to a row
    above them, and the check counts the flagged rows.  The result is
    [None] when the count is zero and the warning text with the count in
    decimal when it is positive.  A frame in which two rows are equal
    and no other row equals a row above it gives the count 1.  The entry of the returned dictionary is this result;
    renaming the columns does not change it. *)
Theorem C7_duplicate_rows :
  (forall df,
      List.length (duplicated df) = nrows df /\
      (forall i, nth_error (duplicated df) i = Some true <->
                 i < nrows df /\ exists j, j < i /\ row df j = row df i) /\
      sum_bool (duplicated df)
      = List.length (filter (repeats_earlier df) (seq 0 (nrows df))) /\
      (sum_bool (duplicated df) = 0 -> check_duplicates df = None) /\
      (0 < sum_bool (duplicated df) ->
       check_duplicates df
       = Some ("Warning: there are " ++ PyStr.str_nat (sum_bool (duplicated df))
               ++ " duplicate rows in the dataset.")%string)) /\
  (forall df a b,
      a < b -> b < nrows df -> row df a = row df b ->
      (forall i j, i < j -> j < nrows df -> row df i = row df j -> j = b) ->
      sum_bool (duplicated df) = 1 /\
      check_duplicates df
      = Some "Warning: there are 1 duplicate rows in the dataset.") /\
  (forall read_excel exceptions out,
      analyze_and_clean_excel_file describe str_counts str_dtypes
        read_excel exceptions = Ok out ->
      duplicates_warning (snd (fst out)) = check_duplicates read_excel).
Proof.
  split; [|split].
  - intros df. split; [|split; [|split; [|split]]].
    + unfold duplicated. now rewrite duplicated_from_length, rows_length.
    + apply duplicated_flag.
    + now rewrite duplicated_repeats, sum_bool_map.
    + intros H. unfold check_duplicates. now rewrite H.
    + intros H. unfold check_duplicates.
      apply Nat.ltb_lt in H. now rewrite H.
  - intros df a b Hab Hb Heq Honly.
    assert (Hsum : sum_bool (duplicated df) = 1).
    { rewrite duplicated_repeats, sum_bool_map.
      rewrite (filter_ext_in (repeats_earlier df) (fun i => i =? b)).
      - rewrite filter_eqb_seq. apply Nat.ltb_lt in Hb. now rewrite Hb.
      - intros i Hi. apply in_seq in Hi.
        destruct (i =? b) eqn:Hib.
        + apply Nat.eqb_eq in Hib. subst i.
          apply repeats_earlier_true. now exists a.
        + apply Nat.eqb_neq in Hib.
          destruct (repeats_earlier df i) eqn:Hrep; [|reflexivity].
          apply repeats_earlier_true in Hrep. destruct Hrep as [j [Hj Hrow]].
          exfalso. apply Hib. apply (Honly j i); [exact Hj|lia|exact Hrow]. }
    split; [exact Hsum|].
    unfold check_duplicates. rewrite Hsum. reflexivity.
  - intros read_excel exceptions out H.
    apply analyze_Ok in H. subst out. simpl.
    unfold check_duplicates, duplicated.
    now rewrite (rows_data _ read_excel
                   (format_columns_data read_excel exceptions)).
Qed.

End QualityClaims.

(** ** Claims on the sanitization stage *)

Lemma last_char_cons (c k : ascii) (s : string) :
  PyStr.last_char (String c (String k s)) = PyStr.last_char (String k s).
Proof. reflexivity. Qed.

(** [rstrip] cuts a run of whitespace off the end, and the whole of it. *)
Lemma rstrip_spec (s : string) :
  exists w, s = (PyStr.rstrip s ++ w)%string /\
            PyStr.all_chars PyStr.is_space w = true /\
            ends_clean (PyStr.rstrip s).
Proof.
  induction s as [|c s [w [Hs [Hw Hclean]]]].
  - exists EmptyString. repeat split.
  - rewrite rstrip_cons.
    destruct (PyStr.rstrip s) as [|k kept] eqn:Hr.
    + simpl in Hs. subst w.
      destruct (PyStr.is_space c) eqn:Hc.
      * exists (String c s). simpl. rewrite Hc, Hw. repeat split.
      * exists s. unfold ends_clean. simpl. now rewrite Hc.
    + exists w. split; [|split].
      * simpl. simpl in Hs. now rewrite <- Hs.
      * exact Hw.
      * unfold ends_clean in *. now rewrite last_char_cons.
Qed.

Lemma rstrip_keeps_nonspace (c : ascii) (rest : string) :
  PyStr.is_space c = false ->
  exists kept, PyStr.rstrip (String c rest) = String c kept.
Proof.
  intros Hc. rewrite rstrip_cons.
  destruct (PyStr.rstrip rest) as [|k kept].
  - rewrite Hc. now exists EmptyString.
  - now exists (String k kept).
Qed.

(** Whatever stands before a character that is not whitespace is kept as it
    is, leading whitespace included. *)
Lemma rstrip_keeps_leading (lead : string) (c : ascii) (rest : string) :
  PyStr.is_space c = false ->
  exists kept,
    PyStr.rstrip (lead ++ String c rest) = (lead ++ String c kept)%string.
Proof.
  intros Hc. induction lead as [|a lead [kept IH]].
  - simpl. now apply rstrip_keeps_nonspace.
  - exists kept.
    change (PyStr.rstrip (String a (lead ++ String c rest))
            = String a (lead ++ String c kept)).
    rewrite rstrip_cons, IH. now destruct lead.
Qed.

Lemma rstrip_string_columns_nth (df df' : DataFrame) (i : nat) (c : Column) :
  rstrip_string_columns df = Ok df' ->
  nth_error df i = Some c ->
  nth_error df' i = Some (rstrip_column c).
Proof.
  intros H Hi. apply rstrip_string_columns_Ok in H. subst df'.
  now rewrite nth_error_map, Hi.
Qed.

Lemma rstrip_column_numeric (c : Column) :
  is_numeric c = true -> rstrip_column c = c.
Proof.
  unfold is_numeric, rstrip_column.
  destruct (data c); simpl; intros H; try reflexivity; discriminate.
Qed.

(** C3.  [rstrip] splits a value into what it returns and a run of
    whitespace that reaches the end of the value, and what it returns does
    not end in whitespace; everything up to a character that is not
    whitespace is returned as it stands, so leading whitespace stays.  When
    line 69 goes through (it does when no label repeats) the frame keeps its
    columns in place: a text column has every present value stripped in this
    way and every missing value still missing; a column of another type is
    the same column. *)
Theorem C3_trailing_whitespace_only :
  (forall s, exists w,
        s = (PyStr.rstrip s ++ w)%string /\
        PyStr.all_chars PyStr.is_space w = true /\
        ends_clean (PyStr.rstrip s)) /\
  (forall lead c rest,
      PyStr.is_space c = false ->
      exists kept,
        PyStr.rstrip (lead ++ String c rest) = (lead ++ String c kept)%string) /\
  (forall df,
      (NoDup (labels df) -> exists df', rstrip_string_columns df = Ok df') /\
      forall df',
        rstrip_string_columns df = Ok df' ->
        List.length df' = List.length df /\
        forall i c,
          nth_error df i = Some c ->
          match data c with
          | ObjectSeries l =>
              exists l',
                nth_error df' i = Some (mkColumn (label c) (ObjectSeries l')) /\
                List.length l' = List.length l /\
                (forall j, nth_error l j = Some None ->
                           nth_error l' j = Some None) /\
                (forall j s, nth_error l j = Some (Some s) ->
                             nth_error l' j = Some (Some (PyStr.rstrip s)))
          | _ => nth_error df' i = Some c
          end).
Proof.
  split; [exact rstrip_spec|]. split; [exact rstrip_keeps_leading|].
  intros df. split.
  - intros Hnd. exists (map rstrip_column df).
    now apply rstrip_string_columns_NoDup.
  - intros df' H. split.
    + apply rstrip_string_columns_Ok in H. subst df'. apply length_map.
    + intros i c Hi.
      pose proof (rstrip_string_columns_nth df df' i c H Hi) as Hnth.
      unfold rstrip_column in Hnth.
      destruct (data c) as [l|l|l|l|l]; try exact Hnth.
      exists (map (option_map PyStr.rstrip) l).
      split; [exact Hnth|]. split; [apply length_map|]. split.
      * intros j Hj. now rewrite nth_error_map, Hj.
      * intros j s Hj. now rewrite nth_error_map, Hj.
Qed.

(** C2, as the code has it.  When line 69 goes through (it does when no
    label repeats), a value " abc  " of a text column has become " abc": the
    two trailing spaces are gone and the leading space is still there.  Every
    numeric column is the same column as before. *)
Theorem C2_sanitization_example :
  forall df,
    (NoDup (labels df) -> exists df', rstrip_string_columns df = Ok df') /\
    forall df',
      rstrip_string_columns df = Ok df' ->
      (forall i c l j,
          nth_error df i = Some c ->
          data c = ObjectSeries l ->
          nth_error l j = Some (Some " abc  ") ->
          exists l',
            nth_error df' i = Some (mkColumn (label c) (ObjectSeries l')) /\
            nth_error l' j = Some (Some " abc")) /\
      (forall i c,
          nth_error df i = Some c -> is_numeric c = true ->
          nth_error df' i = Some c).
Proof.
  intros df. split.
  - intros Hnd. exists (map rstrip_column df).
    now apply rstrip_string_columns_NoDup.
  - intros df' H. split.
    + intros i c l j Hi Hdata Hj.
      pose proof (rstrip_string_columns_nth df df' i c H Hi) as Hnth.
      unfold rstrip_column in Hnth. rewrite Hdata in Hnth.
      exists (map (option_map PyStr.rstrip) l). split; [exact Hnth|].
      now rewrite nth_error_map, Hj.
    + intros i c Hi Hnum.
      rewrite (rstrip_string_columns_nth df df' i c H Hi).
      now rewrite rstrip_column_numeric.
Qed.

(** C2 as the claim words it fails: the value " abc  " does not become
    "abc"; the leading space is kept. *)
Lemma C2_leading_space_kept :
  rstrip_string_columns
    [mkColumn "text" (ObjectSeries [Some " abc  "]);
     mkColumn "n" (Int64Series [7%Z])]
  = Ok [mkColumn "text" (ObjectSeries [Some " abc"]);
        mkColumn "n" (Int64Series [7%Z])] /\
  " abc" <> "abc".
Proof. split; [reflexivity|discriminate]. Qed.

(** ** Claims on the date stage *)

Lemma zero_pad_2 (n : nat) :
  n < 100 -> PyStr.zero_pad 2 (PyStr.str_nat n) = two_digits n.
Proof.
  intros Hn.
  assert (Hall : forallb (fun k => String.eqb (PyStr.zero_pad 2 (PyStr.str_nat k))
                                     (two_digits k)) (seq 0 100) = true)
    by (vm_compute; reflexivity).
  rewrite forallb_forall in Hall. apply String.eqb_eq, Hall, in_seq. lia.
Qed.

Lemma zero_pad_4 (n : nat) :
  n < 100 * 100 -> PyStr.zero_pad 4 (PyStr.str_nat n) = four_digits n.
Proof.
  intros Hn.
  assert (Hall : forallb (fun k => String.eqb (PyStr.zero_pad 4 (PyStr.str_nat k))
                                     (four_digits k)) (seq 0 (100 * 100)) = true)
    by (vm_compute; reflexivity).
  rewrite forallb_forall in Hall. apply String.eqb_eq, Hall, in_seq. lia.
Qed.

Lemma convert_date_columns_nth (df df' : DataFrame) (i : nat) (c : Column) :
  convert_date_columns df = Ok df' ->
  nth_error df i = Some c ->
  nth_error df' i = Some (strftime_column c).
Proof.
  intros H Hi. apply convert_date_columns_Ok in H. subst df'.
  now rewrite nth_error_map, Hi.
Qed.

(** C8.  [strftime('%m/%d/%Y')] writes two digits of month, a slash, two
    digits of day, a slash and four digits of year, with zeros in front where
    the number is short; 2024-03-05 gives "03/05/2024" at any time of day.
    When the loop of lines 73 and 74 goes through (it does when no label
    repeats) the frame keeps its columns in place: a date column has become a
    text column holding the formatted text of every timestamp, [NaT] being
    missing; a column of another type is the same column. *)
Theorem C8_date_format :
  (forall t,
      month t < 100 -> day t < 100 -> year t < 100 * 100 ->
      strftime_mdY t
      = (two_digits (month t) ++ "/" ++ two_digits (day t) ++ "/"
         ++ four_digits (year t))%string) /\
  (forall time, strftime_mdY (mkTimestamp 2024 3 5 time) = "03/05/2024") /\
  (forall df,
      (NoDup (labels df) -> exists df', convert_date_columns df = Ok df') /\
      forall df',
        convert_date_columns df = Ok df' ->
        List.length df' = List.length df /\
        forall i c,
          nth_error df i = Some c ->
          match data c with
          | DatetimeSeries l =>
              exists l',
                nth_error df' i = Some (mkColumn (label c) (ObjectSeries l')) /\
                List.length l' = List.length l /\
                (forall j, nth_error l j = Some None ->
                           nth_error l' j = Some None) /\
                (forall j t, nth_error l j = Some (Some t) ->
                             nth_error l' j = Some (Some (strftime_mdY t)))
          | _ => nth_error df' i = Some c
          end).
Proof.
  split; [|split].
  - intros t Hm Hd Hy. unfold strftime_mdY.
    now rewrite !zero_pad_2, zero_pad_4.
  - reflexivity.
  - intros df. split.
    + intros Hnd. exists (map strftime_column df).
      now apply convert_date_columns_NoDup.
    + intros df' H. split.
      * apply convert_date_columns_Ok in H. subst df'. apply length_map.
      * intros i c Hi.
        pose proof (convert_date_columns_nth df df' i c H Hi) as Hnth.
        unfold strftime_column in Hnth.
        destruct (data c) as [l|l|l|l|l]; try exact Hnth.
        exists (map (option_map strftime_mdY) l).
        split; [exact Hnth|]. split; [apply length_map|]. split.
        -- intros j Hj. now rewrite nth_error_map, Hj.
        -- intros j t Hj. now rewrite nth_error_map, Hj.
Qed.

(** ** Claims on the whole function *)

Lemma shape_lens (df df' : DataFrame) : lens df = lens df' -> shape df = shape df'.
Proof.
  intros H. unfold shape.
  assert (Hlen : List.length df = List.length df').
  { unfold lens in H. apply (f_equal (@List.length nat)) in H.
    now rewrite !length_map in H. }
  rewrite Hlen. f_equal.
  destruct df as [|c df], df' as [|c' df']; simpl in *; try discriminate;
    [reflexivity|].
  now injection H.
Qed.

Lemma lens_data (df df' : DataFrame) : map data df = map data df' -> lens df = lens df'.
Proof.
  intros H. unfold lens.
  rewrite <- (map_map data len df), <- (map_map data len df'). now rewrite H.
Qed.

Lemma lens_rstrip (df : DataFrame) : lens (map rstrip_column df) = lens df.
Proof.
  unfold lens. rewrite map_map. apply map_ext. intros c.
  unfold rstrip_column. destruct (data c) eqn:Hd; simpl; rewrite ?Hd; simpl;
    try reflexivity.
  apply length_map.
Qed.

Lemma lens_strftime (df : DataFrame) : lens (map strftime_column df) = lens df.
Proof.
  unfold lens. rewrite map_map. apply map_ext. intros c.
  unfold strftime_column. destruct (data c) eqn:Hd; simpl; rewrite ?Hd; simpl;
    try reflexivity.
  apply length_map.
Qed.

Lemma lens_cleaned (df : DataFrame) : lens (cleaned df) = lens df.
Proof. unfold cleaned. now rewrite lens_strftime, lens_rstrip. Qed.

Lemma nunique_le (s : Series) (pool : list cell) :
  incl (cells s) pool -> nunique s <= List.length pool.
Proof. apply unique_from_length_le. Qed.

Lemma nunique_ge (s : Series) (vs : list cell) :
  NoDup vs -> incl vs (cells s) -> List.length vs <= nunique s.
Proof. apply unique_from_length_ge. Qed.

Section PipelineClaims.

Variable Summary : Type.
Variable describe : DataFrame -> Summary.
Variable str_counts : list (string * nat) -> string.
Variable str_dtypes : list (string * dtype) -> string.

Local Abbreviation analyze :=
  (analyze_and_clean_excel_file describe str_counts str_dtypes).

(** C9.  The function returns whenever the labels it gives the frame do
    not repeat, and whenever it returns, the frame it returns has as many
    columns as the frame read, column by column of the same length, hence
    the same shape.  Each stage on its own keeps the shape: the renaming,
    line 69 and the loop of lines 73 and 74. *)
Theorem C9_shape_preserved :
  (forall read_excel exceptions,
      (NoDup (format_column_names exceptions (labels read_excel)) ->
       exists out, analyze read_excel exceptions = Ok out) /\
      forall df' report calls,
        analyze read_excel exceptions = Ok (df', report, calls) ->
        List.length df' = List.length read_excel /\
        lens df' = lens read_excel /\
        shape df' = shape read_excel) /\
  (forall df exceptions, shape (format_columns df exceptions) = shape df) /\
  (forall df df', rstrip_string_columns df = Ok df' -> shape df' = shape df) /\
  (forall df df', convert_date_columns df = Ok df' -> shape df' = shape df).
Proof.
  assert (Hfmt : forall df exceptions, lens (format_columns df exceptions) = lens df)
    by (intros df exceptions; apply lens_data, format_columns_data).
  split; [|split; [|split]].
  - intros read_excel exceptions. split.
    + intros Hnd. eexists. now apply analyze_NoDup.
    + intros df' report calls H. apply analyze_Ok in H.
      injection H as -> _ _.
      assert (Hlens : lens (cleaned (format_columns read_excel exceptions))
                      = lens read_excel)
        by (now rewrite lens_cleaned, Hfmt).
      split; [|split; [exact Hlens|now apply shape_lens]].
      apply (f_equal (@List.length nat)) in Hlens.
      unfold lens in Hlens. now rewrite !length_map in Hlens.
  - intros df exceptions. apply shape_lens, Hfmt.
  - intros df df' H. apply rstrip_string_columns_Ok in H. subst df'.
    apply shape_lens, lens_rstrip.
  - intros df df' H. apply convert_date_columns_Ok in H. subst df'.
    apply shape_lens, lens_strftime.
Qed.

(** C5.  Whenever the function returns (it does when no label repeats),
    the columns it hands to the box plot, to the distribution plots and to
    [describe] are the columns of the cleaned frame that are of type int64
    or float64 and have more than 10 distinct values, a missing value
    counting as one value; the summary is [describe] of these columns and
    of no other, and is absent when there is none.  A column whose values
    come from a pool of at most 10, such as 0 and 1, is not among them; a
    numeric column in which 11 distinct values occur is. *)
Theorem C5_outlier_selection :
  forall read_excel exceptions,
    (NoDup (format_column_names exceptions (labels read_excel)) ->
     exists out, analyze read_excel exceptions = Ok out) /\
    forall df' report calls,
      analyze read_excel exceptions = Ok (df', report, calls) ->
      let selection := outlier_selection df' in
      (forall c, In c selection <->
                 In c df' /\ is_numeric c = true /\ 10 < nunique (data c)) /\
      dataframe_summary report
      = match selection with
        | [] => None
        | _ => Some (describe selection)
        end /\
      (exists box, calls = box ++ flat_map dist_calls selection /\
                   (box = [] \/ box = box_calls selection)) /\
      (forall c pool,
          incl (cells (data c)) pool -> List.length pool <= 10 ->
          ~ In c selection) /\
      (forall c,
          incl (cells (data c))
            [CInt 0; CInt 1; CFloat float_zero; CFloat float_one] ->
          ~ In c selection) /\
      (forall c vs,
          In c df' -> is_numeric c = true ->
          NoDup vs -> 11 <= List.length vs -> incl vs (cells (data c)) ->
          In c selection).
Proof.
  intros read_excel exceptions. split.
  - intros Hnd. eexists. now apply analyze_NoDup.
  - intros df' report calls H selection. apply analyze_Ok in H.
    unfold outcome in H. injection H as Hdf Hreport Hcalls.
    assert (Hpool : forall c pool,
               incl (cells (data c)) pool -> List.length pool <= 10 ->
               ~ In c selection).
    { intros c pool Hincl Hlen Hin.
      apply outlier_selection_In in Hin. destruct Hin as [_ [_ Hgt]].
      pose proof (nunique_le (data c) pool Hincl). lia. }
    split; [apply outlier_selection_In|].
    split; [subst report df'; reflexivity|].
    split.
    { subst calls df'. eexists. split; [reflexivity|].
      destruct (select_dtypes _ _); [now left|now right]. }
    split; [exact Hpool|]. split.
    + intros c Hincl. apply (Hpool c _ Hincl). simpl. lia.
    + intros c vs Hin Hnum Hnd Hlen Hincl.
      apply outlier_selection_In. split; [exact Hin|]. split; [exact Hnum|].
      pose proof (nunique_ge (data c) vs Hnd Hincl). lia.
Qed.

(** C10.  Whenever the function returns with a selection that is not
    empty, the entry [dist_plots_title] of the dictionary is the text
    "Distribution plots for numerical columns", whatever was selected, and
    every selected column has its title "Distribution of " followed by its
    label among the plotting calls.  Whatever the selection, no text entry
    of the dictionary is such a title. *)
Theorem C10_dist_plots_title :
  forall read_excel exceptions df' report calls,
    analyze read_excel exceptions = Ok (df', report, calls) ->
    (outlier_selection df' <> [] ->
     dist_plots_title report = Some "Distribution plots for numerical columns") /\
    (forall c, In c (outlier_selection df') ->
               In (plt_title ("Distribution of " ++ label c)%string) calls) /\
    (forall name,
        let title := ("Distribution of " ++ name)%string in
        dist_plots_title report <> Some title /\
        box_plot_title report <> Some title /\
        missing_values_warning report <> Some title /\
        duplicates_warning report <> Some title /\
        data_types report <> title).
Proof.
  intros read_excel exceptions df' report calls H.
  apply analyze_Ok in H. unfold outcome in H.
  injection H as Hdf Hreport Hcalls.
  set (df := format_columns read_excel exceptions) in *.
  split; [|split].
  - intros Hne. subst report df'. simpl.
    destruct (outlier_selection (cleaned df)); [contradiction|reflexivity].
  - intros c Hc. subst calls df'. apply in_or_app. right.
    apply in_flat_map. exists c. split; [exact Hc|]. right. now left.
  - intros name title. subst report title. simpl.
    repeat split.
    + destruct (outlier_selection (cleaned df)); discriminate.
    + destruct (select_dtypes _ _); discriminate.
    + unfold check_missing_values.
      destruct (0 <? _); discriminate.
    + unfold check_duplicates.
      destruct (0 <? _); discriminate.
    + unfold check_data_types. discriminate.
Qed.

(** C1 fails on the code.  For a frame with the single int64 column flag
    holding 0, 1, 0 the selection is empty, yet the function returns the
    box-plot title "Box plot of data values for " and has called
    [plt.boxplot] with no column, [plt.title] and [plt.show]; the two other
    entries are absent. *)
Theorem C1_box_plot_with_empty_selection :
  let read_excel := [mkColumn "flag" (Int64Series [0; 1; 0]%Z)] in
  exists report,
    analyze read_excel default_exceptions
    = Ok (read_excel, report,
          [plt_boxplot []; plt_title "Box plot of data values for "; plt_show]) /\
    outlier_selection read_excel = [] /\
    box_plot_title report = Some "Box plot of data values for " /\
    dist_plots_title report = None /\
    dataframe_summary report = None.
Proof.
  eexists. split; [reflexivity|]. repeat split.
Qed.

End PipelineClaims.

(** ** The claims on sample input *)

Ltac labels_distinct :=
  vm_compute; repeat (constructor; [simpl; intuition discriminate|]); constructor.

Lemma sample_run :
  analyze_and_clean_excel_file describe_labels render_counts render_dtypes
    sample_frame default_exceptions
  = Ok (outcome describe_labels render_counts render_dtypes
          sample_frame default_exceptions).
Proof. vm_compute. reflexivity. Qed.

Lemma sample_outcome_frame :
  fst (fst (outcome describe_labels render_counts render_dtypes
              sample_frame default_exceptions))
  = sample_cleaned.
Proof. vm_compute. reflexivity. Qed.

Lemma C2_sanitization_example_witness :
  exists df',
    rstrip_string_columns sample_renamed = Ok df' /\
    (exists l', nth_error df' 1 = Some (mkColumn "user_id" (ObjectSeries l')) /\
                nth_error l' 0 = Some (Some " abc")) /\
    nth_error df' 3 = nth_error sample_renamed 3.
Proof.
  destruct (C2_sanitization_example sample_renamed) as [Htotal Hprops].
  destruct Htotal as [df' Hdf']; [labels_distinct|].
  exists df'. split; [exact Hdf'|].
  destruct (Hprops df' Hdf') as [Htext Hnum]. split.
  - apply (Htext 1 (mkColumn "user_id"
                      (ObjectSeries (Some " abc  " :: None
                                       :: List.repeat (Some "x ") 10)))
             (Some " abc  " :: None :: List.repeat (Some "x ") 10) 0);
      reflexivity.
  - apply (Hnum 3); reflexivity.
Defined.

Lemma C3_trailing_whitespace_only_witness :
  (exists kept, PyStr.rstrip " abc  " = String " " (String "a" kept)) /\
  exists df',
    rstrip_string_columns sample_renamed = Ok df' /\
    List.length df' = 4 /\
    nth_error df' 0 = nth_error sample_renamed 0.
Proof.
  destruct C3_trailing_whitespace_only as [_ [Hlead Hframe]].
  split.
  - apply (Hlead " " "a"%char "bc  "). reflexivity.
  - destruct (Hframe sample_renamed) as [Htotal Hprops].
    destruct Htotal as [df' Hdf']; [labels_distinct|].
    exists df'. split; [exact Hdf'|].
    destruct (Hprops df' Hdf') as [Hlen Hcols]. split; [exact Hlen|].
    apply (Hcols 0
             (mkColumn "example_id"
                (Int64Series [1; 2; 3; 4; 5; 6; 7; 8; 9; 10; 11; 11]%Z))).
    reflexivity.
Defined.

Lemma C5_outlier_selection_witness :
  exists report calls,
    analyze_and_clean_excel_file describe_labels render_counts render_dtypes
      sample_frame default_exceptions
    = Ok (sample_cleaned, report, calls) /\
    In (mkColumn "example_id"
          (Int64Series [1; 2; 3; 4; 5; 6; 7; 8; 9; 10; 11; 11]%Z))
      (outlier_selection sample_cleaned) /\
    ~ In (mkColumn "flag" (Int64Series [0; 1; 0; 1; 0; 1; 0; 1; 0; 1; 1; 1]%Z))
        (outlier_selection sample_cleaned).
Proof.
  destruct (C5_outlier_selection (list string) describe_labels render_counts render_dtypes
              sample_frame default_exceptions) as [Htotal Hprops].
  destruct Htotal as [[[df' report] calls] Hout]; [labels_distinct|].
  assert (Hdf : df' = sample_cleaned).
  { pose proof Hout as E. rewrite sample_run in E. injection E as E _ _.
    rewrite <- E. exact sample_outcome_frame. }
  subst df'. exists report, calls. split; [exact Hout|].
  destruct (Hprops _ _ _ Hout) as [_ [_ [_ [_ [Hflag Hmany]]]]]. split.
  - apply (Hmany _ (map CInt [1; 2; 3; 4; 5; 6; 7; 8; 9; 10; 11]%Z)).
    + simpl. tauto.
    + reflexivity.
    + simpl. repeat (constructor; [simpl; intuition discriminate|]). constructor.
    + simpl. lia.
    + intros v Hv. simpl in Hv. simpl. intuition.
  - apply Hflag. intros v Hv. simpl in Hv. simpl. intuition.
Defined.

Lemma C7_duplicate_rows_witness :
  nrows twin_rows = 2 /\
  row twin_rows 0 = row twin_rows 1 /\
  sum_bool (duplicated twin_rows) = 1 /\
  check_duplicates twin_rows
  = Some "Warning: there are 1 duplicate rows in the dataset.".
Proof.
  destruct (C7_duplicate_rows (list string) describe_labels render_counts render_dtypes)
    as [_ [Htwins _]].
  split; [reflexivity|]. split; [reflexivity|].
  apply (Htwins twin_rows 0 1);
    [lia|simpl; lia|reflexivity|intros i j Hij Hj _; simpl in Hj; lia].
Defined.

Lemma C8_date_format_witness :
  strftime_mdY march_5 = "03/05/2024" /\
  exists df',
    convert_date_columns (map rstrip_column sample_renamed) = Ok df' /\
    exists l',
      nth_error df' 2 = Some (mkColumn "order__date" (ObjectSeries l')) /\
      nth_error l' 0 = Some (Some "03/05/2024").
Proof.
  destruct C8_date_format as [Hpattern [_ Hframe]].
  split.
  - rewrite (Hpattern march_5); [reflexivity|simpl; lia|simpl; lia|simpl; lia].
  - destruct (Hframe (map rstrip_column sample_renamed)) as [Htotal Hprops].
    destruct Htotal as [df' Hdf']; [labels_distinct|].
    exists df'. split; [exact Hdf'|].
    destruct (Hprops df' Hdf') as [_ Hcols].
    destruct (Hcols 2
                (mkColumn "order__date"
                   (DatetimeSeries (Some march_5 :: None
                                      :: List.repeat (Some march_5) 10)))
                eq_refl) as [l' [Hnth [_ [_ Hvalue]]]].
    exists l'. split; [exact Hnth|].
    apply (Hvalue 0 march_5). reflexivity.
Defined.

Lemma C9_shape_preserved_witness :
  exists df' report calls,
    analyze_and_clean_excel_file describe_labels render_counts render_dtypes
      sample_frame default_exceptions
    = Ok (df', report, calls) /\
    shape df' = (12, 4).
Proof.
  destruct (C9_shape_preserved (list string) describe_labels render_counts render_dtypes)
    as [Hrun _].
  destruct (Hrun sample_frame default_exceptions) as [Htotal Hshape].
  destruct Htotal as [[[df' report] calls] Hout]; [labels_distinct|].
  exists df', report, calls. split; [exact Hout|].
  destruct (Hshape df' report calls Hout) as [_ [_ ->]]. reflexivity.
Defined.

Lemma C10_dist_plots_title_witness :
  exists report calls,
    analyze_and_clean_excel_file describe_labels render_counts render_dtypes
      sample_frame default_exceptions
    = Ok (sample_cleaned, report, calls) /\
    dist_plots_title report = Some "Distribution plots for numerical columns" /\
    In (plt_title "Distribution of example_id") calls.
Proof.
  pose proof sample_run as Hout.
  destruct (outcome describe_labels render_counts render_dtypes
              sample_frame default_exceptions) as [[df' report] calls] eqn:Hval.
  assert (Hdf : df' = sample_cleaned).
  { rewrite <- sample_outcome_frame, Hval. reflexivity. }
  subst df'. exists report, calls. split; [exact Hout|].
  destruct (C10_dist_plots_title (list string) describe_labels render_counts render_dtypes
              sample_frame default_exceptions sample_cleaned report calls Hout)
    as [Htitle [Hcalls _]].
  split.
  - apply Htitle. vm_compute. discriminate.
  - apply (Hcalls (mkColumn "example_id"
                     (Int64Series [1; 2; 3; 4; 5; 6; 7; 8; 9; 10; 11; 11]%Z))).
    vm_compute. now left.
Defined.

(** * Further properties *)

(** ** The normalisation of names *)

Lemma all_chars_map_chars (p : ascii -> bool) (f : ascii -> ascii) (s : string) :
  PyStr.all_chars p (PyStr.map_chars f s)
  = PyStr.all_chars (fun c => p (f c)) s.
Proof. induction s as [|c s IH]; simpl; [reflexivity|now rewrite IH]. Qed.

Lemma all_chars_true (p : ascii -> bool) (s : string) :
  (forall c, p c = true) -> PyStr.all_chars p s = true.
Proof.
  intros H. induction s as [|c s IH]; simpl; [reflexivity|].
  now rewrite H, IH.
Qed.

Lemma map_chars_map_chars (f g : ascii -> ascii) (s : string) :
  PyStr.map_chars g (PyStr.map_chars f s) = PyStr.map_chars (fun c => g (f c)) s.
Proof. induction s as [|c s IH]; simpl; [reflexivity|now rewrite IH]. Qed.

Lemma map_chars_fixed (f : ascii -> ascii) (p : ascii -> bool) (s : string) :
  (forall c, p c = true -> f c = c) ->
  PyStr.all_chars p s = true -> PyStr.map_chars f s = s.
Proof.
  intros Hf. induction s as [|c s IH]; simpl; intros H; [reflexivity|].
  apply andb_true_iff in H. destruct H as [Hc Hs].
  now rewrite (Hf c Hc), IH.
Qed.

Lemma lowered_settled (c : ascii) :
  settled_char (if Ascii.eqb (PyStr.lower_char c) " " then "_"%char
                else PyStr.lower_char c) = true.
Proof.
  destruct c as [[|] [|] [|] [|] [|] [|] [|] [|]]; vm_compute; reflexivity.
Qed.

Lemma settled_fixed (c : ascii) :
  settled_char c = true ->
  (if Ascii.eqb (PyStr.lower_char c) " " then "_"%char else PyStr.lower_char c) = c.
Proof.
  destruct c as [[|] [|] [|] [|] [|] [|] [|] [|]]; vm_compute;
    intros H; try reflexivity; discriminate.
Qed.

Lemma settled_not_AZ (c : ascii) : settled_char c = true -> PyStr.is_AZ c = false.
Proof.
  unfold settled_char. destruct (PyStr.is_AZ c); [discriminate|reflexivity].
Qed.

(** Nothing is inserted where no capital letter stands. *)
Lemma sub_inner_no_capital (s : string) :
  PyStr.all_chars (fun c => negb (PyStr.is_AZ c)) s = true ->
  PyStr.sub_inner s = s.
Proof.
  induction s as [|c s IH]; simpl; intros H; [reflexivity|].
  apply andb_true_iff in H. destruct H as [Hc Hs].
  apply negb_true_iff in Hc. rewrite Hc, IH by assumption.
  now destruct s.
Qed.

(** Nothing is inserted where no small letter stands. *)
Lemma sub_inner_no_small (s : string) :
  PyStr.all_chars (fun c => negb (PyStr.is_az c)) s = true ->
  PyStr.sub_inner s = s.
Proof.
  induction s as [|c s IH]; simpl; intros H; [reflexivity|].
  apply andb_true_iff in H. destruct H as [Hc Hs].
  rewrite IH by assumption.
  destruct s as [|d s]; [reflexivity|].
  simpl in Hs. apply andb_true_iff in Hs. destruct Hs as [Hd _].
  apply negb_true_iff in Hd. rewrite Hd, andb_false_r. reflexivity.
Qed.

Lemma snake_case_as_map (col : string) :
  snake_case col
  = PyStr.map_chars
      (fun c => if Ascii.eqb (PyStr.lower_char c) " " then "_"%char
                else PyStr.lower_char c)
      (PyStr.re_sub_word_start col).
Proof.
  unfold snake_case, PyStr.replace_space, PyStr.lower.
  apply map_chars_map_chars.
Qed.

Lemma snake_case_settled (col : string) :
  PyStr.all_chars settled_char (snake_case col) = true.
Proof.
  rewrite snake_case_as_map, all_chars_map_chars.
  apply all_chars_true. exact lowered_settled.
Qed.

Lemma all_chars_weaken (p q : ascii -> bool) (s : string) :
  (forall c, p c = true -> q c = true) ->
  PyStr.all_chars p s = true -> PyStr.all_chars q s = true.
Proof.
  intros Hpq. induction s as [|c s IH]; simpl; intros H; [reflexivity|].
  apply andb_true_iff in H. destruct H as [Hc Hs].
  now rewrite (Hpq c Hc), IH.
Qed.

Lemma snake_case_fixed (name : string) :
  PyStr.all_chars settled_char name = true -> snake_case name = name.
Proof.
  intros H. rewrite snake_case_as_map.
  assert (Hsub : PyStr.re_sub_word_start name = name).
  { destruct name as [|c rest]; [reflexivity|]. simpl.
    simpl in H. apply andb_true_iff in H. destruct H as [_ Hrest].
    f_equal. apply sub_inner_no_capital.
    apply (all_chars_weaken settled_char); [|exact Hrest].
    intros d Hd. now rewrite (settled_not_AZ d Hd). }
  rewrite Hsub. now apply (map_chars_fixed _ settled_char); [apply settled_fixed|].
Qed.

(** X1.  Whatever the name, the normalisation of line 39 returns a name
    without ASCII capital, without Latin-1 capital and without space. *)
Theorem snake_case_no_capital_no_space :
  forall col,
    PyStr.all_chars settled_char (snake_case col) = true /\
    PyStr.all_chars (fun c => negb (PyStr.is_AZ c)) (snake_case col) = true /\
    PyStr.all_chars (fun c => negb (Ascii.eqb c " ")) (snake_case col) = true.
Proof.
  intros col. pose proof (snake_case_settled col) as H.
  split; [exact H|]. split.
  - apply (all_chars_weaken settled_char); [|exact H].
    intros c Hc. now rewrite (settled_not_AZ c Hc).
  - apply (all_chars_weaken settled_char); [|exact H].
    intros c. unfold settled_char. rewrite !andb_true_iff. tauto.
Qed.

(** X2.  The normalisation of line 39 is idempotent: applied to a name it
    returned, it returns that name. *)
Theorem snake_case_idempotent :
  forall col, snake_case (snake_case col) = snake_case col.
Proof. intros col. apply snake_case_fixed, snake_case_settled. Qed.

(** X3.  A name in which no small ASCII letter occurs gets no separator:
    the normalisation only lowers its letters and turns its spaces into
    underscores. *)
Theorem snake_case_without_small_letters :
  forall col,
    PyStr.all_chars (fun c => negb (PyStr.is_az c)) col = true ->
    snake_case col = PyStr.replace_space (PyStr.lower col).
Proof.
  intros col H.
  assert (Hsub : PyStr.re_sub_word_start col = col).
  { destruct col as [|c rest]; [reflexivity|]. simpl.
    simpl in H. apply andb_true_iff in H. destruct H as [_ Hrest].
    f_equal. now apply sub_inner_no_small. }
  unfold snake_case. now rewrite Hsub.
Qed.

Lemma snake_case_without_small_letters_witness :
  snake_case "ORDER ID" = "order_id".
Proof.
  rewrite (snake_case_without_small_letters "ORDER ID" eq_refl). reflexivity.
Defined.

Lemma new_col_of_no_source (exceptions : list exception_rule) (col : string) :
  in_sources exceptions col = false -> new_col_of exceptions col = snake_case col.
Proof. intros H. unfold new_col_of. now rewrite H, andb_false_r. Qed.

Lemma in_sources_false (exceptions : list exception_rule) (col : string) :
  in_sources exceptions col = false <-> forall e, In e exceptions -> fst e <> col.
Proof.
  unfold in_sources. split.
  - intros H e He Heq.
    assert (Habs : existsb (String.eqb col) (map fst exceptions) = true).
    { apply existsb_exists. exists (fst e). split; [now apply in_map|].
      rewrite Heq. apply String.eqb_refl. }
    congruence.
  - intros H. destruct (existsb _ _) eqn:Hex; [|reflexivity].
    apply existsb_exists in Hex. destruct Hex as [s0 [Hin Heq]].
    apply in_map_iff in Hin. destruct Hin as [e [He Hin]].
    apply String.eqb_eq in Heq. exfalso. apply (H e Hin). congruence.
Qed.

(** X4.  Exceptions whose source is neither the name of a column nor the
    normalised name of a column change nothing: every column gets its
    normalised name.  So does the empty list of exceptions. *)
Theorem unmatched_exceptions_ignored :
  forall exceptions columns,
    (forall e c, In e exceptions -> In c columns ->
                 fst e <> c /\ fst e <> snake_case c) ->
    format_column_names exceptions columns = map snake_case columns.
Proof.
  intros exceptions columns H. unfold format_column_names.
  rewrite rename_exceptions_map, map_map. apply map_ext_in. intros c Hc.
  rewrite new_col_of_no_source.
  - apply reapply_no_source. intros e He. now apply (H e c).
  - apply in_sources_false. intros e He. now apply (H e c).
Qed.

Lemma unmatched_exceptions_ignored_witness :
  format_column_names [("Legacy", "old")] ["UserId"; "Order Date"]
  = ["user_id"; "order__date"] /\
  format_column_names [] ["UserId"] = ["user_id"].
Proof.
  split.
  - rewrite unmatched_exceptions_ignored; [reflexivity|].
    intros e c [<-|[]] [<-|[<-|[]]]; split; discriminate.
  - rewrite unmatched_exceptions_ignored; [reflexivity|].
    intros e c [].
Defined.

Lemma reapply_first_source (before after : list exception_rule)
  (name target : string) :
  (forall e, In e before -> fst e <> name) ->
  reapply (before ++ (name, target) :: after) name = reapply after target.
Proof.
  unfold reapply.
  induction before as [|e before IH]; simpl; intros H.
  - now rewrite String.eqb_refl.
  - destruct (String.eqb name (fst e)) eqn:He.
    + apply String.eqb_eq in He. exfalso. apply (H e); auto.
    + apply IH. intros e' He'. apply H. now right.
Qed.

(** X5.  The second loop also renames by normalised name: a column whose
    own name is the source of no exception, and whose normalised name is
    the source of one, leaves with the target of the first such exception
    after the later exceptions were tried on it; with that target itself
    when it is the source of no later exception. *)
Theorem exception_on_normalised_name :
  forall before after col target columns i,
    let exceptions := before ++ (snake_case col, target) :: after in
    nth_error columns i = Some col ->
    (forall e, In e exceptions -> fst e <> col) ->
    (forall e, In e before -> fst e <> snake_case col) ->
    nth_error (format_column_names exceptions columns) i
    = Some (reapply after target) /\
    ((forall e, In e after -> fst e <> target) ->
     nth_error (format_column_names exceptions columns) i = Some target).
Proof.
  intros before after col target columns i exceptions Hi Hcol Hbefore.
  assert (Hfin : nth_error (format_column_names exceptions columns) i
                 = Some (reapply after target)).
  { rewrite (format_column_names_nth exceptions columns i col Hi).
    rewrite new_col_of_no_source by (now apply in_sources_false).
    unfold exceptions. now rewrite reapply_first_source. }
  split; [exact Hfin|].
  intros Hafter. now rewrite Hfin, reapply_no_source.
Qed.

Lemma exception_on_normalised_name_witness :
  nth_error (format_column_names [("user_id", "uid")] ["Name"; "UserId"]) 1
  = Some "uid".
Proof.
  destruct (exception_on_normalised_name [] [] "UserId" "uid" ["Name"; "UserId"] 1
              eq_refl) as [_ H].
  - intros e [<-|[]]. discriminate.
  - intros e [].
  - apply H. intros e [].
Defined.

(** ** Labels that repeat *)

Lemma labelled_length_labels (df : DataFrame) :
  forall df' key,
    labels df = labels df' ->
    List.length (labelled df key) = List.length (labelled df' key).
Proof.
  unfold labels, labelled.
  induction df as [|c df IH]; intros [|c' df'] key H; simpl in H;
    try discriminate; [reflexivity|].
  injection H as Hc Hrest. simpl. rewrite Hc.
  destruct (String.eqb (label c') key); simpl; now rewrite (IH df' key Hrest).
Qed.

Lemma setitem_labels (df : DataFrame) (key : string) (s : Series) :
  labels (setitem df key s) = labels df.
Proof.
  unfold labels, setitem. rewrite map_map. apply map_ext. intros c.
  destruct (String.eqb (label c) key) eqn:Hk; [|reflexivity].
  apply String.eqb_eq in Hk. now symmetry.
Qed.

(** When the loop of lines 73 and 74 goes through, each label it looked up
    was carried by one column. *)
Lemma convert_dates_single (date_cols : list string) :
  forall df df',
    convert_dates date_cols df = Ok df' ->
    forall col, In col date_cols -> List.length (labelled df col) = 1.
Proof.
  induction date_cols as [|k rest IH]; intros df df' H col Hcol;
    [contradiction|].
  simpl in H.
  destruct (getitem df k) as [e|found] eqn:Hget; [discriminate|].
  simpl in H.
  destruct (as_series found) as [e|x] eqn:Hser; [discriminate|].
  simpl in H.
  destruct (dt_strftime x) as [e|y] eqn:Hfmt; [discriminate|].
  simpl in H.
  destruct Hcol as [<-|Hcol].
  - apply getitem_Ok in Hget. destruct Hget as [-> _].
    apply as_series_Ok in Hser. destruct Hser as [c0 [-> _]]. reflexivity.
  - rewrite <- (IH _ _ H col Hcol).
    apply labelled_length_labels. symmetry. apply setitem_labels.
Qed.

Lemma labelled_two (df : DataFrame) :
  forall i j ci cj key,
    nth_error df i = Some ci -> nth_error df j = Some cj -> i <> j ->
    label ci = key -> label cj = key ->
    2 <= List.length (labelled df key).
Proof.
  assert (Hone : forall (l : DataFrame) n c key,
             nth_error l n = Some c -> label c = key ->
             1 <= List.length (labelled l key)).
  { intros l n c key Hn Hk.
    assert (Hin : In c (labelled l key)).
    { apply labelled_In. split; [|exact Hk]. now apply nth_error_In in Hn. }
    destruct (labelled l key); [contradiction|simpl; lia]. }
  induction df as [|c df IH]; intros i j ci cj key Hi Hj Hne Hci Hcj.
  - destruct i; discriminate.
  - unfold labelled. simpl. fold (labelled df key).
    destruct i as [|i], j as [|j]; simpl in Hi, Hj.
    + contradiction.
    + injection Hi as ->. rewrite Hci, String.eqb_refl. simpl.
      pose proof (Hone df j cj key Hj Hcj). lia.
    + injection Hj as ->. rewrite Hcj, String.eqb_refl. simpl.
      pose proof (Hone df i ci key Hi Hci). lia.
    + assert (H2 : 2 <= List.length (labelled df key))
        by (apply (IH i j ci cj); auto).
      destruct (String.eqb (label c) key); simpl; lia.
Qed.

Lemma rstrip_column_dtype_kept (c : Column) :
  dtype_eqb (dtype_of (data c)) object = false -> rstrip_column c = c.
Proof.
  unfold rstrip_column. destruct (data c); simpl; intros H;
    try reflexivity; discriminate.
Qed.

Lemma strftime_column_dtype_kept (c : Column) :
  dtype_eqb (dtype_of (data c)) datetime64 = false -> strftime_column c = c.
Proof.
  unfold strftime_column. destruct (data c); simpl; intros H;
    try reflexivity; discriminate.
Qed.

Lemma flat_map_dist_calls_length (selection : DataFrame) :
  List.length (flat_map dist_calls selection) = 3 * List.length selection.
Proof. induction selection as [|c l IH]; simpl; [reflexivity|]. rewrite IH. lia. Qed.

(** ** Cleaning, cell by cell *)

Lemma cells_cleaned (c : Column) :
  cells (data (strftime_column (rstrip_column c)))
  = map clean_cell (cells (data c)).
Proof.
  destruct c as [lbl [l|l|l|l|l]]; unfold rstrip_column, strftime_column; simpl;
    rewrite ?map_map; try reflexivity; symmetry; apply map_id.
Qed.

Lemma row_cleaned (df : DataFrame) (i : nat) :
  row (cleaned df) i = map (option_map clean_cell) (row df i).
Proof.
  unfold row, cleaned. rewrite !map_map. apply map_ext. intros c.
  now rewrite cells_cleaned, nth_error_map.
Qed.

Lemma nrows_cleaned (df : DataFrame) : nrows (cleaned df) = nrows df.
Proof.
  pose proof (shape_lens _ _ (lens_cleaned df)) as H.
  unfold shape in H. now injection H.
Qed.

Lemma filter_length_le (A : Type) (p q : A -> bool) (l : list A) :
  (forall x, In x l -> p x = true -> q x = true) ->
  List.length (filter p l) <= List.length (filter q l).
Proof.
  induction l as [|x l IH]; intros H; simpl; [lia|].
  assert (IH' : List.length (filter p l) <= List.length (filter q l))
    by (apply IH; intros y Hy; apply H; now right).
  destruct (p x) eqn:Hp.
  - rewrite (H x (or_introl eq_refl) Hp). simpl. lia.
  - destruct (q x); simpl; lia.
Qed.

(** Cleaning keeps equal rows equal, so it never lowers the count. *)
Lemma duplicated_cleaned_le (df : DataFrame) :
  sum_bool (duplicated df) <= sum_bool (duplicated (cleaned df)).
Proof.
  rewrite !duplicated_repeats, !sum_bool_map, nrows_cleaned.
  apply filter_length_le. intros i _ Hi.
  apply repeats_earlier_true in Hi. destruct Hi as [j [Hj Heq]].
  apply repeats_earlier_true. exists j. split; [exact Hj|].
  now rewrite !row_cleaned, Heq.
Qed.

Lemma nunique_le_len (s : Series) : nunique s <= len s.
Proof.
  assert (Hlen : List.length (cells s) = len s)
    by (destruct s; simpl; apply length_map).
  rewrite <- Hlen. apply unique_from_length_le. apply incl_refl.
Qed.

Lemma set_columns_nth (df : DataFrame) :
  forall new_cols i c name,
    nth_error df i = Some c -> nth_error new_cols i = Some name ->
    nth_error (set_columns df new_cols) i = Some (mkColumn name (data c)).
Proof.
  unfold set_columns.
  induction df as [|d df IH]; intros [|n new_cols] [|i] c name Hc Hn;
    simpl in *; try discriminate.
  - injection Hc as ->. injection Hn as ->. reflexivity.
  - now apply IH.
Qed.

Lemma clean_data_column (c : Column) :
  strftime_column (rstrip_column c) = mkColumn (label c) (clean_data (data c)).
Proof. destruct c as [lbl [l|l|l|l|l]]; reflexivity. Qed.

(** ** The whole function, further *)

Section FurtherPipeline.

Variable Summary : Type.
Variable describe : DataFrame -> Summary.
Variable str_counts : list (string * nat) -> string.
Variable str_dtypes : list (string * dtype) -> string.

Local Abbreviation analyze :=
  (analyze_and_clean_excel_file describe str_counts str_dtypes).

(** The stages behind a run that returns. *)
Lemma analyze_stages (read_excel : DataFrame) (exceptions : list exception_rule)
  (out : DataFrame * Report Summary * list plot_call) :
  analyze read_excel exceptions = Ok out ->
  let df := format_columns read_excel exceptions in
  convert_date_columns (map rstrip_column df) = Ok (cleaned df) /\
  (forall c, In c (select_dtypes [int64; float64] (cleaned df)) ->
             labelled (cleaned df) (label c) = [c]).
Proof.
  intros H df. revert H. unfold analyze_and_clean_excel_file. fold df.
  destruct (rstrip_string_columns df) as [e|df1] eqn:Hstrip; [discriminate|].
  cbn [bind].
  destruct (convert_date_columns df1) as [e|df2] eqn:Hdates; [discriminate|].
  cbn [bind].
  destruct (box_plot df2 (labels (select_dtypes [int64; float64] df2)))
    as [e|boxed] eqn:Hbox; [discriminate|].
  intros _.
  pose proof (rstrip_string_columns_Ok _ _ Hstrip) as E1. subst df1.
  pose proof (convert_date_columns_Ok _ _ Hdates) as E2. subst df2.
  fold (cleaned df) in *.
  split; [exact Hdates|]. exact (box_plot_Ok _ _ Hbox).
Qed.

(** X6.  The function never returns when a numeric or date column shares
    its label with another column: whenever it returns, every int64,
    float64 or datetime64 column of the renamed frame is the only column
    with its label, so two columns with one label, one of them of such a
    type, stand at the same place. *)
Theorem looked_up_labels_are_unique :
  forall read_excel exceptions out,
    analyze read_excel exceptions = Ok out ->
    let df := format_columns read_excel exceptions in
    (forall c, In c df -> looked_up c = true ->
               List.length (labelled df (label c)) = 1) /\
    (forall i j ci cj,
        nth_error df i = Some ci -> nth_error df j = Some cj ->
        looked_up ci = true -> label ci = label cj -> i = j).
Proof.
  intros read_excel exceptions out H df.
  destruct (analyze_stages read_excel exceptions out H) as [Hdates Hnum].
  fold df in Hdates, Hnum.
  assert (Hone : forall c, In c df -> looked_up c = true ->
                           List.length (labelled df (label c)) = 1).
  { intros c Hc Hty. unfold looked_up in Hty. simpl in Hty.
    destruct (dtype_eqb (dtype_of (data c)) datetime64) eqn:Hdate.
    - assert (Hobj : dtype_eqb (dtype_of (data c)) object = false)
        by (destruct (data c); simpl in *; congruence).
      assert (Hin : In c (select_dtypes [datetime64] (map rstrip_column df))).
      { unfold select_dtypes. apply filter_In. split.
        - rewrite <- (rstrip_column_dtype_kept c Hobj). now apply in_map.
        - simpl. now rewrite Hdate. }
      unfold convert_date_columns in Hdates.
      rewrite <- (convert_dates_single _ _ _ Hdates (label c)).
      + apply labelled_length_labels. unfold labels. rewrite map_map.
        apply map_ext. intros d. symmetry. apply rstrip_column_label.
      + unfold labels. now apply in_map.
    - rewrite orb_false_r in Hty.
      assert (Hobj : dtype_eqb (dtype_of (data c)) object = false)
        by (destruct (data c); simpl in *; congruence).
      assert (Hin : In c (select_dtypes [int64; float64] (cleaned df))).
      { unfold select_dtypes. apply filter_In. split.
        - unfold cleaned.
          rewrite <- (strftime_column_dtype_kept c Hdate).
          rewrite <- (rstrip_column_dtype_kept c Hobj) at 1.
          now apply in_map, in_map.
        - simpl. now rewrite orb_false_r. }
      rewrite (labelled_length_labels df (cleaned df) (label c))
        by (symmetry; apply cleaned_labels).
      now rewrite (Hnum c Hin). }
  split; [exact Hone|].
  intros i j ci cj Hi Hj Hty Hlab.
  destruct (Nat.eq_dec i j) as [Heq|Hne]; [exact Heq|exfalso].
  pose proof (labelled_two df i j ci cj (label ci) Hi Hj Hne eq_refl
                (eq_sym Hlab)) as H2.
  rewrite (Hone ci (nth_error_In _ _ Hi) Hty) in H2. lia.
Qed.

(** X7.  Whenever the function returns: with no int64 or float64 column it
    has made no plotting call and the three entries are absent; with one
    or more, its calls are the box plot of the selected columns, its
    title naming their labels joined by ", ", [plt.show], then for every
    selected column in frame order the distribution plot, its title and
    [plt.show], that is 3 calls and 3 more per selected column. *)
Theorem plotting_calls_in_order :
  forall read_excel exceptions df' report calls,
    analyze read_excel exceptions = Ok (df', report, calls) ->
    let selection := outlier_selection df' in
    (select_dtypes [int64; float64] df' = [] ->
     calls = [] /\ box_plot_title report = None /\
     dist_plots_title report = None /\ dataframe_summary report = None) /\
    (select_dtypes [int64; float64] df' <> [] ->
     calls = box_calls selection ++ flat_map dist_calls selection /\
     box_plot_title report
     = Some ("Box plot of data values for "
             ++ String.concat ", " (labels selection))%string /\
     List.length calls = 3 + 3 * List.length selection).
Proof.
  intros read_excel exceptions df' report calls H selection.
  apply analyze_Ok in H. unfold outcome in H.
  injection H as Hdf Hreport Hcalls.
  set (df := format_columns read_excel exceptions) in *.
  subst selection. subst df'.
  pose proof (outlier_selection_numeric (cleaned df)) as Hsel.
  destruct (select_dtypes [int64; float64] (cleaned df)) as [|c0 numeric].
  - simpl in Hsel. rewrite Hsel in *. subst report calls.
    split; [intros _; repeat split|intros Habs; now contradiction Habs].
  - split; [discriminate|]. intros _. subst report calls.
    split; [reflexivity|]. split; [reflexivity|].
    rewrite length_app, flat_map_dist_calls_length. reflexivity.
Qed.

(** X9.  The number of duplicate rows is counted before the cleaning and
    is at most the number the returned frame has: rows that were equal
    stay equal.  So when the returned frame has no duplicate row, no
    warning is given. *)
Theorem duplicates_counted_before_cleaning :
  forall read_excel exceptions df' report calls,
    analyze read_excel exceptions = Ok (df', report, calls) ->
    sum_bool (duplicated read_excel) <= sum_bool (duplicated df') /\
    (sum_bool (duplicated df') = 0 -> duplicates_warning report = None).
Proof.
  intros read_excel exceptions df' report calls H.
  apply analyze_Ok in H. unfold outcome in H. injection H as -> -> _.
  set (df := format_columns read_excel exceptions).
  assert (Hrows : duplicated df = duplicated read_excel).
  { unfold duplicated, df.
    now rewrite (rows_data _ read_excel (format_columns_data read_excel exceptions)). }
  assert (Hle : sum_bool (duplicated read_excel) <= sum_bool (duplicated (cleaned df)))
    by (rewrite <- Hrows; apply duplicated_cleaned_le).
  split; [exact Hle|].
  intros Hzero. simpl. unfold check_duplicates.
  rewrite Hrows.
  assert (Hz : sum_bool (duplicated read_excel) = 0) by lia.
  now rewrite Hz.
Qed.

(** X10.  A frame in which no column has more than 10 rows gives neither
    distribution plots nor a summary: whenever the function returns, the
    selection is empty and both entries are absent. *)
Theorem short_frames_have_no_selection :
  forall read_excel exceptions df' report calls,
    analyze read_excel exceptions = Ok (df', report, calls) ->
    (forall c, In c read_excel -> len (data c) <= 10) ->
    outlier_selection df' = [] /\
    dist_plots_title report = None /\
    dataframe_summary report = None.
Proof.
  intros read_excel exceptions df' report calls H Hshort.
  apply analyze_Ok in H. unfold outcome in H. injection H as -> -> _.
  set (df := format_columns read_excel exceptions).
  assert (Hsel : outlier_selection (cleaned df) = []).
  { unfold outlier_selection. apply filter_none. intros c Hc.
    assert (Hlen : In (len (data c)) (lens read_excel)).
    { rewrite <- (lens_data df read_excel (format_columns_data read_excel exceptions)).
      rewrite <- (lens_cleaned df). unfold lens.
      apply (in_map (fun c => len (data c))). exact Hc. }
    unfold lens in Hlen. apply in_map_iff in Hlen.
    destruct Hlen as [c0 [Heq Hin]].
    pose proof (Hshort c0 Hin). pose proof (nunique_le_len (data c)).
    apply andb_false_iff. right. apply Nat.ltb_ge. lia. }
  split; [exact Hsel|]. simpl. now rewrite Hsel.
Qed.

(** X11.  Whenever the function returns, the column at each place of the
    returned frame carries the label the two loops of lines 35 to 46 give
    the name of the column read at that place; if that column is not a
    text column, its data is returned formatted when it is a date column
    and untouched otherwise. *)
Theorem returned_frame_column_by_column :
  forall read_excel exceptions df' report calls,
    analyze read_excel exceptions = Ok (df', report, calls) ->
    forall i c,
      nth_error read_excel i = Some c ->
      exists c',
        nth_error df' i = Some c' /\
        label c' = reapply exceptions (new_col_of exceptions (label c)) /\
        (dtype_of (data c) <> object -> data c' = clean_data (data c)).
Proof.
  intros read_excel exceptions df' report calls H i c Hi.
  apply analyze_Ok in H. unfold outcome in H. injection H as -> _ _.
  exists (mkColumn (reapply exceptions (new_col_of exceptions (label c)))
            (clean_data (data c))).
  split; [|split; [reflexivity|reflexivity]].
  unfold cleaned. rewrite !nth_error_map.
  unfold format_columns.
  rewrite (set_columns_nth read_excel _ i c
             (reapply exceptions (new_col_of exceptions (label c))) Hi).
  - simpl. now rewrite clean_data_column.
  - apply format_column_names_nth. unfold labels.
    now rewrite nth_error_map, Hi.
Qed.

End FurtherPipeline.

(** ** The stages, further *)

Lemma rstrip_string_columns_Ok_single (df df' : DataFrame) :
  rstrip_string_columns df = Ok df' ->
  forall c, In c (select_dtypes [object] df) -> labelled df (label c) = [c].
Proof.
  unfold rstrip_string_columns, labels.
  rewrite (getitem_list_present df (select_dtypes [object] df))
    by (apply select_dtypes_In).
  simpl. rewrite apply_rstrip_lambda. simpl. unfold setitem_list.
  rewrite !length_map.
  destruct (Nat.eqb _ _) eqn:Hlen; [|discriminate].
  apply Nat.eqb_eq in Hlen. intros _.
  exact (flat_map_labelled_exact df (select_dtypes [object] df)
           (select_dtypes_In [object] df) Hlen).
Qed.

Lemma rstrip_string_columns_single (df : DataFrame) :
  (forall c, In c (select_dtypes [object] df) -> labelled df (label c) = [c]) ->
  rstrip_string_columns df = Ok (map rstrip_column df).
Proof.
  intros Hsingle.
  destruct (rstrip_string_columns df) as [e|df'] eqn:H.
  - exfalso. revert H. unfold rstrip_string_columns, labels.
    rewrite (getitem_list_present df (select_dtypes [object] df))
      by (apply select_dtypes_In).
    simpl. rewrite apply_rstrip_lambda. simpl. unfold setitem_list.
    rewrite flat_map_labelled_single by exact Hsingle.
    rewrite !length_map, Nat.eqb_refl. discriminate.
  - apply rstrip_string_columns_Ok in H. now subst.
Qed.

Lemma labelled_map (G : Column -> Column) (df : DataFrame) (key : string) :
  (forall c, label (G c) = label c) ->
  labelled (map G df) key = map G (labelled df key).
Proof.
  intros HG. unfold labelled.
  induction df as [|c df IH]; simpl; [reflexivity|].
  rewrite HG. destruct (String.eqb (label c) key); simpl; now rewrite IH.
Qed.

Lemma rstrip_column_dtype (c : Column) :
  dtype_of (data (rstrip_column c)) = dtype_of (data c).
Proof. now destruct c as [lbl [l|l|l|l|l]]. Qed.

(** X12.  Line 69 is idempotent: run on a frame it returned, it goes
    through and returns that frame. *)
Theorem rstrip_string_columns_idempotent :
  forall df df',
    rstrip_string_columns df = Ok df' -> rstrip_string_columns df' = Ok df'.
Proof.
  intros df df' H.
  pose proof (rstrip_string_columns_Ok_single df df' H) as Hsingle.
  apply rstrip_string_columns_Ok in H. subst df'.
  rewrite rstrip_string_columns_single.
  - rewrite map_map.
    assert (E : map (fun x => rstrip_column (rstrip_column x)) df
                = map rstrip_column df)
      by (apply map_ext; exact rstrip_column_idem).
    now rewrite E.
  - intros c' Hc'. unfold select_dtypes in Hc'. apply filter_In in Hc'.
    destruct Hc' as [Hin Hty]. apply in_map_iff in Hin.
    destruct Hin as [c [<- Hin]]. rewrite rstrip_column_dtype in Hty.
    rewrite (labelled_map rstrip_column df _ rstrip_column_label).
    rewrite rstrip_column_label, (Hsingle c); [reflexivity|].
    unfold select_dtypes. apply filter_In. now split.
Qed.

(** X13.  The loop of lines 73 and 74 leaves no date column behind: in
    the frame it returns no column is of type datetime64, and run on that
    frame it returns it as it is. *)
Theorem convert_date_columns_leaves_no_date :
  forall df df',
    convert_date_columns df = Ok df' ->
    select_dtypes [datetime64] df' = [] /\
    convert_date_columns df' = Ok df'.
Proof.
  intros df df' H. apply convert_date_columns_Ok in H. subst df'.
  assert (Hnone : select_dtypes [datetime64] (map strftime_column df) = []).
  { unfold select_dtypes. apply filter_none. intros c' Hc'.
    apply in_map_iff in Hc'. destruct Hc' as [c [<- _]].
    now destruct c as [lbl [l|l|l|l|l]]. }
  split; [exact Hnone|].
  unfold convert_date_columns. now rewrite Hnone.
Qed.

(** X14.  [rstrip] returns the empty string exactly for the values made of
    whitespace only; such a cell becomes empty text, not a missing value. *)
Theorem rstrip_empty_iff_whitespace :
  forall s,
    (PyStr.rstrip s = EmptyString <-> PyStr.all_chars PyStr.is_space s = true) /\
    option_map PyStr.rstrip (Some s) <> None.
Proof.
  intros s. split; [|discriminate].
  induction s as [|c s IH].
  - split; reflexivity.
  - rewrite rstrip_cons. simpl.
    destruct (PyStr.rstrip s) as [|k kept].
    + destruct (PyStr.is_space c); simpl.
      * split; intros _; [now apply IH|reflexivity].
      * split; discriminate.
    + split; [discriminate|]. intros H.
      apply andb_true_iff in H. destruct H as [_ H].
      apply IH in H. discriminate.
Qed.

Lemma filter_all (A : Type) (p : A -> bool) (l : list A) :
  (forall x, In x l -> p x = true) -> filter p l = l.
Proof.
  induction l as [|x l IH]; simpl; intros H; [reflexivity|].
  rewrite (H x) by now left. f_equal. apply IH. intros y Hy. apply H. now right.
Qed.

(** X15.  The first row is never counted as a duplicate, so the count is
    below the number of rows; a frame whose rows all equal its first row
    gives the number of rows less one. *)
Theorem duplicates_spare_first_row :
  forall df,
    nth_error (duplicated df) 0 <> Some true /\
    sum_bool (duplicated df) <= nrows df - 1 /\
    ((forall i, i < nrows df -> row df i = row df 0) ->
     sum_bool (duplicated df) = nrows df - 1).
Proof.
  intros df. rewrite duplicated_repeats, sum_bool_map.
  destruct (nrows df) as [|n] eqn:Hn.
  - simpl. repeat split; [discriminate|lia].
  - change (seq 0 (S n)) with (0 :: seq 1 n).
    assert (H0 : repeats_earlier df 0 = false) by reflexivity.
    cbn [map nth_error filter]. rewrite H0.
    split; [discriminate|]. split.
    + pose proof (List.filter_length_le (repeats_earlier df) (seq 1 n)) as Hle.
      rewrite length_seq in Hle. lia.
    + intros Hall. rewrite filter_all.
      * rewrite length_seq. lia.
      * intros i Hi. apply in_seq in Hi.
        apply repeats_earlier_true. exists 0. split; [lia|].
        symmetry. apply Hall. lia.
Qed.

Lemma duplicates_spare_first_row_witness :
  nrows twin_rows = 2 /\ sum_bool (duplicated twin_rows) = 1.
Proof.
  destruct (duplicates_spare_first_row twin_rows) as [_ [_ H]].
  split; [reflexivity|]. apply H.
  intros [|[|i]] Hi; [reflexivity|reflexivity|simpl in Hi; lia].
Defined.

Lemma two_digits_value (n : nat) : n < 100 -> digits_value (two_digits n) = n.
Proof.
  intros Hn.
  assert (Hall : forallb (fun k => digits_value (two_digits k) =? k) (seq 0 100)
                 = true) by (vm_compute; reflexivity).
  rewrite forallb_forall in Hall. apply Nat.eqb_eq, Hall, in_seq. lia.
Qed.

Lemma four_digits_value (n : nat) :
  n < 100 * 100 -> digits_value (four_digits n) = n.
Proof.
  intros Hn.
  assert (Hall : forallb (fun k => digits_value (four_digits k) =? k)
                   (seq 0 (100 * 100)) = true) by (vm_compute; reflexivity).
  rewrite forallb_forall in Hall. apply Nat.eqb_eq, Hall, in_seq. lia.
Qed.

(** X16.  The text [strftime('%m/%d/%Y')] writes tells the day and nothing
    else: two timestamps of four-digit years with the same text have the
    same year, month and day, and two timestamps of the same day have the
    same text whatever their time of day. *)
Theorem strftime_tells_the_day :
  (forall t1 t2,
      month t1 < 100 -> day t1 < 100 -> year t1 < 100 * 100 ->
      month t2 < 100 -> day t2 < 100 -> year t2 < 100 * 100 ->
      strftime_mdY t1 = strftime_mdY t2 ->
      year t1 = year t2 /\ month t1 = month t2 /\ day t1 = day t2) /\
  (forall y m d time1 time2,
      strftime_mdY (mkTimestamp y m d time1)
      = strftime_mdY (mkTimestamp y m d time2)).
Proof.
  split; [|reflexivity].
  intros t1 t2 Hm1 Hd1 Hy1 Hm2 Hd2 Hy2 H.
  unfold strftime_mdY in H.
  rewrite !zero_pad_2, !zero_pad_4 in H by assumption.
  assert (Hparts : two_digits (month t1) = two_digits (month t2) /\
                   two_digits (day t1) = two_digits (day t2) /\
                   four_digits (year t1) = four_digits (year t2)).
  { unfold two_digits, four_digits in *. cbn [String.append] in H.
    injection H. intros Ey0 Ey1 Ey2 Ey3 Ed0 Ed1 Em0 Em1.
    split; [|split].
    - f_equal; [exact Em1|f_equal; exact Em0].
    - f_equal; [exact Ed1|f_equal; exact Ed0].
    - f_equal; [exact Ey3|].
      f_equal; [exact Ey2|].
      f_equal; [exact Ey1|f_equal; exact Ey0]. }
  destruct Hparts as [Em [Ed Ey]].
  apply (f_equal digits_value) in Em, Ed, Ey.
  rewrite !two_digits_value in Em, Ed by assumption.
  rewrite !four_digits_value in Ey by assumption.
  auto.
Qed.

Lemma strftime_tells_the_day_witness :
  strftime_mdY march_5 = strftime_mdY (mkTimestamp 2024 3 5 86399) /\
  year march_5 = 2024.
Proof.
  destruct strftime_tells_the_day as [Hday _].
  split; [reflexivity|].
  apply (Hday march_5 (mkTimestamp 2024 3 5 86399));
    try reflexivity; simpl; lia.
Defined.

(** ** The further properties on sample input *)

Lemma sample_returns :
  exists report calls,
    analyze_and_clean_excel_file describe_labels render_counts render_dtypes
      sample_frame default_exceptions
    = Ok (sample_cleaned, report, calls).
Proof.
  pose proof sample_run as Hout.
  destruct (outcome describe_labels render_counts render_dtypes
              sample_frame default_exceptions) as [[df' report] calls] eqn:Hval.
  assert (Hdf : df' = sample_cleaned).
  { rewrite <- sample_outcome_frame, Hval. reflexivity. }
  subst df'. now exists report, calls.
Qed.

Lemma twin_rows_run :
  analyze_and_clean_excel_file describe_labels render_counts render_dtypes
    twin_rows default_exceptions
  = Ok (outcome describe_labels render_counts render_dtypes
          twin_rows default_exceptions).
Proof. vm_compute. reflexivity. Qed.

Lemma looked_up_labels_are_unique_witness :
  List.length (labelled sample_renamed "example_id") = 1 /\
  forall out,
    analyze_and_clean_excel_file describe_labels render_counts render_dtypes
      clash_frame default_exceptions <> Ok out.
Proof.
  split.
  - destruct (looked_up_labels_are_unique (list string) describe_labels
                render_counts render_dtypes sample_frame default_exceptions
                _ sample_run) as [Hone _].
    apply (Hone (mkColumn "example_id"
                   (Int64Series [1; 2; 3; 4; 5; 6; 7; 8; 9; 10; 11; 11]%Z))).
    + vm_compute. now left.
    + reflexivity.
  - intros out Hout.
    destruct (looked_up_labels_are_unique (list string) describe_labels
                render_counts render_dtypes clash_frame default_exceptions
                out Hout) as [_ Hsame].
    assert (Habs : 0 = 1).
    { apply (Hsame 0 1 (mkColumn "user_id" (Int64Series [1; 2]%Z))
               (mkColumn "user_id" (Int64Series [3; 4]%Z))); reflexivity. }
    discriminate.
Defined.

Lemma plotting_calls_in_order_witness :
  exists report calls,
    analyze_and_clean_excel_file describe_labels render_counts render_dtypes
      sample_frame default_exceptions
    = Ok (sample_cleaned, report, calls) /\
    List.length calls = 6.
Proof.
  destruct sample_returns as [report [calls Hout]].
  exists report, calls. split; [exact Hout|].
  destruct (plotting_calls_in_order (list string) describe_labels render_counts
              render_dtypes sample_frame default_exceptions sample_cleaned
              report calls Hout) as [_ Hsome].
  destruct Hsome as [_ [_ Hlen]]; [vm_compute; discriminate|].
  rewrite Hlen. reflexivity.
Defined.

Lemma duplicates_counted_before_cleaning_witness :
  sum_bool (duplicated sample_frame) <= sum_bool (duplicated sample_cleaned).
Proof.
  destruct sample_returns as [report [calls Hout]].
  apply (duplicates_counted_before_cleaning (list string) describe_labels
           render_counts render_dtypes sample_frame default_exceptions
           sample_cleaned report calls Hout).
Defined.

Lemma short_frames_have_no_selection_witness :
  exists df' report calls,
    analyze_and_clean_excel_file describe_labels render_counts render_dtypes
      twin_rows default_exceptions
    = Ok (df', report, calls) /\
    dist_plots_title report = None /\ dataframe_summary report = None.
Proof.
  pose proof twin_rows_run as Hout.
  destruct (outcome describe_labels render_counts render_dtypes
              twin_rows default_exceptions) as [[df' report] calls].
  exists df', report, calls. split; [exact Hout|].
  apply (short_frames_have_no_selection (list string) describe_labels
           render_counts render_dtypes twin_rows default_exceptions
           df' report calls Hout).
  intros c [<-|[<-|[]]]; simpl; lia.
Defined.

Lemma returned_frame_column_by_column_witness :
  exists c',
    nth_error sample_cleaned 2 = Some c' /\
    label c' = "order__date" /\
    data c' = ObjectSeries (Some "03/05/2024" :: None
                              :: List.repeat (Some "03/05/2024") 10).
Proof.
  destruct sample_returns as [report [calls Hout]].
  destruct (returned_frame_column_by_column (list string) describe_labels
              render_counts render_dtypes sample_frame default_exceptions
              sample_cleaned report calls Hout 2
              (mkColumn "Order Date"
                 (DatetimeSeries (Some march_5 :: None
                                    :: List.repeat (Some march_5) 10)))
              eq_refl) as [c' [Hnth [Hlabel Hdata]]].
  exists c'. split; [exact Hnth|]. split; [exact Hlabel|].
  rewrite Hdata; [reflexivity|discriminate].
Defined.

Lemma rstrip_string_columns_idempotent_witness :
  rstrip_string_columns sample_renamed = Ok (map rstrip_column sample_renamed) /\
  rstrip_string_columns (map rstrip_column sample_renamed)
  = Ok (map rstrip_column sample_renamed).
Proof.
  assert (H : rstrip_string_columns sample_renamed
              = Ok (map rstrip_column sample_renamed))
    by (vm_compute; reflexivity).
  split; [exact H|].
  exact (rstrip_string_columns_idempotent _ _ H).
Defined.

Lemma convert_date_columns_leaves_no_date_witness :
  convert_date_columns (map rstrip_column sample_renamed) = Ok sample_cleaned /\
  select_dtypes [datetime64] sample_cleaned = [] /\
  convert_date_columns sample_cleaned = Ok sample_cleaned.
Proof.
  assert (H : convert_date_columns (map rstrip_column sample_renamed)
              = Ok sample_cleaned)
    by (vm_compute; reflexivity).
  split; [exact H|].
  exact (convert_date_columns_leaves_no_date _ _ H).
Defined.

Lemma rstrip_empty_iff_whitespace_witness :
  PyStr.all_chars PyStr.is_space "   " = true /\ PyStr.rstrip "   " = EmptyString.
Proof.
  destruct (rstrip_empty_iff_whitespace "   ") as [[_ H] _].
  split; [reflexivity|]. apply H. reflexivity.
Defined.

(** ** Two more facts on the stages *)

Lemma rstrip_clean (s : string) : ends_clean s -> PyStr.rstrip s = s.
Proof.
  induction s as [|c s IH]; [reflexivity|].
  intros H. rewrite rstrip_cons.
  destruct s as [|k rest].
  - unfold ends_clean in H. simpl in H. simpl. now rewrite H.
  - unfold ends_clean in *. rewrite last_char_cons in H.
    now rewrite (IH H).
Qed.

(** X17.  A value is left as it is by [rstrip] exactly when it does not
    end in whitespace. *)
Theorem rstrip_fixed_iff_ends_clean :
  forall s, PyStr.rstrip s = s <-> ends_clean s.
Proof.
  intros s. split.
  - intros H. destruct (rstrip_spec s) as [w [_ [_ Hclean]]].
    now rewrite H in Hclean.
  - apply rstrip_clean.
Qed.

Lemma rstrip_fixed_iff_ends_clean_witness :
  ends_clean " abc" /\ PyStr.rstrip " abc" = " abc".
Proof.
  destruct (rstrip_fixed_iff_ends_clean " abc") as [_ H].
  split; [reflexivity|]. apply H. reflexivity.
Defined.

Lemma cleaned_dtype (c : Column) :
  dtype_of (data (strftime_column (rstrip_column c)))
  = match dtype_of (data c) with
    | datetime64 => object
    | d => d
    end.
Proof. now destruct c as [lbl [l|l|l|l|l]]. Qed.

Section ReturnedTypes.

Variable Summary : Type.
Variable describe : DataFrame -> Summary.
Variable str_counts : list (string * nat) -> string.
Variable str_dtypes : list (string * dtype) -> string.

(** X18.  Whenever the function returns, the column at each place of the
    returned frame has the type of the column read at that place, except
    that every datetime64 column is returned as an object column. *)
Theorem only_dates_change_type :
  forall read_excel exceptions df' report calls,
    analyze_and_clean_excel_file describe str_counts str_dtypes
      read_excel exceptions = Ok (df', report, calls) ->
    map (fun c => dtype_of (data c)) df'
    = map (fun c => match dtype_of (data c) with
                    | datetime64 => object
                    | d => d
                    end) read_excel.
Proof.
  intros read_excel exceptions df' report calls H.
  apply analyze_Ok in H. unfold outcome in H. injection H as -> _ _.
  set (df := format_columns read_excel exceptions).
  assert (Hdata : map data df = map data read_excel)
    by apply format_columns_data.
  transitivity (map (fun s => match dtype_of s with
                              | datetime64 => object
                              | d => d
                              end) (map data df)).
  - unfold cleaned. rewrite !map_map. apply map_ext. intros c.
    apply cleaned_dtype.
  - rewrite Hdata. now rewrite map_map.
Qed.

End ReturnedTypes.

Lemma only_dates_change_type_witness :
  map (fun c => dtype_of (data c)) sample_cleaned
  = [int64; object; object; int64].
Proof.
  destruct sample_returns as [report [calls Hout]].
  rewrite (only_dates_change_type (list string) describe_labels render_counts
             render_dtypes sample_frame default_exceptions sample_cleaned
             report calls Hout).
  reflexivity.
Defined.

(** * The text of the missing-value warning *)

Lemma spaces_length (n : nat) : String.length (PandasRepr.spaces n) = n.
Proof. induction n as [|n IH]; simpl; [reflexivity|now rewrite IH]. Qed.

Lemma append_length (a b : string) :
  String.length (a ++ b) = String.length a + String.length b.
Proof. induction a as [|c a IH]; simpl; [reflexivity|now rewrite IH]. Qed.

Lemma append_empty (a : string) : (a ++ EmptyString)%string = a.
Proof. induction a as [|c a IH]; simpl; [reflexivity|now rewrite IH]. Qed.

Lemma ljust_wide (width : nat) (s : string) :
  width <= String.length s -> PandasRepr.ljust width s = s.
Proof.
  intros H. unfold PandasRepr.ljust.
  replace (width - String.length s) with 0 by lia. apply append_empty.
Qed.

Lemma rjust_length (width : nat) (s : string) :
  String.length s <= width -> String.length (PandasRepr.rjust width s) = width.
Proof.
  intros H. unfold PandasRepr.rjust. rewrite append_length, spaces_length. lia.
Qed.

Lemma max_len_In (strings : list string) (s : string) :
  In s strings -> String.length s <= PandasRepr.max_len strings.
Proof.
  unfold PandasRepr.max_len.
  induction strings as [|t strings IH]; simpl; intros H; [contradiction|].
  destruct H as [->|H]; [lia|]. specialize (IH H). lia.
Qed.

Lemma max_len_le (strings : list string) (m : nat) :
  (forall s, In s strings -> String.length s <= m) ->
  PandasRepr.max_len strings <= m.
Proof.
  unfold PandasRepr.max_len.
  induction strings as [|t strings IH]; simpl; intros H; [lia|].
  assert (String.length t <= m) by (apply H; now left).
  assert (fold_right (fun s k => Nat.max (String.length s) k) 0 strings <= m)
    by (apply IH; intros s Hs; apply H; now right).
  lia.
Qed.

Lemma escape_keeps_front (label : string) :
  PandasRepr.starts_with_space (PandasRepr.escape label)
  = PandasRepr.starts_with_space label.
Proof.
  destruct label as [|c rest]; [reflexivity|].
  destruct c as [[|] [|] [|] [|] [|] [|] [|] [|]]; reflexivity.
Qed.

Lemma trim_rounds_stops (rounds : nat) (strings : list string) :
  forallb PandasRepr.starts_with_space strings = false ->
  PandasRepr.trim_rounds rounds strings = strings.
Proof. intros H. destruct rounds; simpl; [reflexivity|now rewrite H]. Qed.

(** When one label does not start with a space, the index is shown as the
    escaped labels. *)
Lemma format_index_plain (index : list string) :
  Exists (fun l => PandasRepr.starts_with_space l = false) index ->
  PandasRepr.format_index index = map PandasRepr.escape index.
Proof.
  intros H.
  assert (Hstop : forallb PandasRepr.starts_with_space
                    (map PandasRepr.escape index) = false).
  { apply Exists_exists in H. destruct H as [l [Hin Hl]].
    apply not_true_is_false. intros Hf. rewrite forallb_forall in Hf.
    specialize (Hf (PandasRepr.escape l) (in_map _ _ _ Hin)).
    rewrite escape_keeps_front in Hf. congruence. }
  unfold PandasRepr.format_index, PandasRepr.trim_front.
  destruct index as [|l0 index]; [reflexivity|].
  assert (Hall : forallb PandasRepr.starts_with_space
                   (map (fun l => String " " (PandasRepr.escape l)) (l0 :: index))
                 = true).
  { apply forallb_forall. intros x Hx.
    apply in_map_iff in Hx. destruct Hx as [l [<- _]]. reflexivity. }
  cbn [map] in Hall. cbn [map String.length PandasRepr.trim_rounds].
  rewrite Hall. cbn [map PandasRepr.drop_first]. rewrite map_map.
  cbn [PandasRepr.drop_first].
  now apply trim_rounds_stops.
Qed.

Lemma combine_fst_snd (A B C D : Type) (f : A -> C) (g : B -> D)
  (l : list (A * B)) :
  combine (map f (map fst l)) (map g (map snd l))
  = map (fun e => (f (fst e), g (snd e))) l.
Proof. induction l as [|e l IH]; simpl; [reflexivity|now rewrite IH]. Qed.

(** What [str] gives for a Series of 1 to 60 counts: one line per entry,
    then the footer. *)
Lemma str_Series_short (series : list (string * nat)) :
  series <> [] -> List.length series <= 60 ->
  Exists (fun l => PandasRepr.starts_with_space l = false) (map fst series) ->
  PandasRepr.str_Series series
  = (String.concat nl
       (map (series_line
               (PandasRepr.max_len (map PandasRepr.escape (map fst series)))
               (PandasRepr.max_len (map PandasRepr.format_int (map snd series))))
          series)
     ++ nl ++ "dtype: int64")%string.
Proof.
  intros Hne Hlen Hplain. unfold PandasRepr.str_Series.
  assert (H0 : (List.length series =? 0) = false).
  { apply Nat.eqb_neq. destruct series; [contradiction|simpl; lia]. }
  assert (H60 : (60 <? List.length series) = false) by (apply Nat.ltb_ge; lia).
  rewrite H0, H60. cbv zeta.
  unfold PandasRepr.adjoin, PandasRepr.format_values. cbv zeta.
  rewrite (format_index_plain _ Hplain).
  set (written := map PandasRepr.format_int (map snd series)).
  set (wv := PandasRepr.max_len written).
  assert (Hvalues : map (PandasRepr.rjust wv) written
                    = map (fun n => PandasRepr.rjust wv (PandasRepr.format_int n))
                        (map snd series))
    by (unfold written; apply map_map).
  rewrite Hvalues, combine_fst_snd, map_map.
  f_equal. f_equal. apply map_ext_in. intros e He.
  unfold series_line. cbn [fst snd]. f_equal.
  assert (Hin : In (PandasRepr.format_int (snd e)) written).
  { unfold written. apply in_map, in_map. exact He. }
  apply ljust_wide. rewrite rjust_length by (now apply max_len_In).
  apply max_len_le. intros s Hs. apply in_map_iff in Hs.
  destruct Hs as [n [<- Hn]]. rewrite rjust_length; [lia|].
  apply max_len_In. unfold written. now apply in_map.
Qed.

Lemma missing_listed_In (df : DataFrame) (name : string) (n : nat) :
  In (name, n) (missing_listed df) <->
  0 < n /\ exists c, In c df /\ label c = name /\ null_count (data c) = n.
Proof.
  unfold missing_listed. rewrite filter_In. simpl. rewrite Nat.ltb_lt.
  unfold isnull_sum. rewrite in_map_iff. split.
  - intros [[c [Hc Hin]] Hn]. injection Hc as <- <-.
    split; [exact Hn|]. now exists c.
  - intros [Hn [c [Hin [<- <-]]]]. split; [|exact Hn]. now exists c.
Qed.

Lemma missing_listed_positive (df : DataFrame) :
  missing_listed df <> [] -> 0 < sum_nat (map snd (isnull_sum df)).
Proof.
  unfold missing_listed. induction (isnull_sum df) as [|[name n] l IH]; simpl.
  - intros H. now contradiction H.
  - destruct (0 <? n) eqn:Hn.
    + apply Nat.ltb_lt in Hn. intros _. lia.
    + intros H. specialize (IH H). lia.
Qed.

(** C6, on the text.  With [str] of a Series as pandas writes it, the
    missing-value result is [None] exactly when no cell is missing.  The
    Series written holds exactly the columns with at least one missing
    cell, each with its count.  While it holds at most 60 of them (one
    label at least not starting with a space), the text is the heading,
    one line per such column made of its label, padding and its count, and
    the footer; for a column a with one missing cell and a column b with
    none it is the heading, the line of a with 1 and the footer.  Beyond
    60 the claim fails on the code: for sixty-one columns c01 to c61 with
    one missing cell each, the text shows the first five and the last five
    around a line of dots, and c06, which has a missing cell, is nowhere in
    it; the function returns that text. *)
Theorem C6_missing_values_text :
  (forall df,
      check_missing_values PandasRepr.str_Series df = None <->
      List.length (filter isnull (flat_map (fun c => cells (data c)) df)) = 0) /\
  (forall df,
      (forall name n,
          In (name, n) (missing_listed df) <->
          0 < n /\ exists c, In c df /\ label c = name /\
                             null_count (data c) = n) /\
      (missing_listed df <> [] ->
       List.length (missing_listed df) <= 60 ->
       Exists (fun l => PandasRepr.starts_with_space l = false)
         (map fst (missing_listed df)) ->
       check_missing_values PandasRepr.str_Series df
       = Some ("Warning: the following columns have missing values:" ++ nl
               ++ String.concat nl
                    (map (series_line
                            (PandasRepr.max_len
                               (map PandasRepr.escape
                                  (map fst (missing_listed df))))
                            (PandasRepr.max_len
                               (map PandasRepr.format_int
                                  (map snd (missing_listed df)))))
                       (missing_listed df))
               ++ nl ++ "dtype: int64")%string)) /\
  (forall a b,
      null_count a = 1 -> null_count b = 0 ->
      check_missing_values PandasRepr.str_Series
        [mkColumn "a" a; mkColumn "b" b]
      = Some (String.concat nl
                ["Warning: the following columns have missing values:";
                 "a    1"; "dtype: int64"])) /\
  (check_missing_values PandasRepr.str_Series wide_frame = Some wide_warning /\
   In ("c06", 1) (missing_listed wide_frame) /\
   contains "c06" wide_warning = false) /\
  (forall (Summary : Type) (describe : DataFrame -> Summary)
          (str_dtypes : list (string * dtype) -> string),
      exists df' report calls,
        analyze_and_clean_excel_file describe PandasRepr.str_Series str_dtypes
          wide_frame default_exceptions = Ok (df', report, calls) /\
        missing_values_warning report = Some wide_warning).
Proof.
  split; [|split; [|split; [|split]]].
  - intros df.
    destruct (missing_values_listing unit (fun _ => tt) PandasRepr.str_Series
                (fun _ => EmptyString)) as [H _].
    apply (H df).
  - intros df. split; [apply missing_listed_In|].
    intros Hne Hlen Hplain. unfold check_missing_values.
    pose proof (missing_listed_positive df Hne) as Hpos.
    apply Nat.ltb_lt in Hpos. rewrite Hpos.
    fold (missing_listed df).
    now rewrite (str_Series_short _ Hne Hlen Hplain).
  - intros a b Ha Hb. unfold check_missing_values, isnull_sum. simpl.
    rewrite Ha, Hb. vm_compute. reflexivity.
  - split; [vm_compute; reflexivity|]. split; [|vm_compute; reflexivity].
    vm_compute. do 5 right. now left.
  - intros Summary describe str_dtypes.
    exists (fst (fst (outcome describe PandasRepr.str_Series str_dtypes
                        wide_frame default_exceptions))),
      (snd (fst (outcome describe PandasRepr.str_Series str_dtypes
                   wide_frame default_exceptions))),
      (snd (outcome describe PandasRepr.str_Series str_dtypes
              wide_frame default_exceptions)).
    split; vm_compute; reflexivity.
Qed.

Lemma C6_missing_values_text_witness :
  null_count (ObjectSeries [Some "x"; None; Some "y"]) = 1 /\
  null_count (Int64Series [1; 2; 3]%Z) = 0 /\
  check_missing_values PandasRepr.str_Series one_missing
  = Some (String.concat nl
            ["Warning: the following columns have missing values:";
             "a    1"; "dtype: int64"]) /\
  List.length (missing_listed one_missing) = 1.
Proof.
  destruct C6_missing_values_text as [_ [Hshort [Hexample _]]].
  split; [reflexivity|]. split; [reflexivity|]. split.
  - apply (Hexample (ObjectSeries [Some "x"; None; Some "y"])
             (Int64Series [1; 2; 3]%Z)); reflexivity.
  - destruct (Hshort one_missing) as [_ Htext].
    assert (Hsome : check_missing_values PandasRepr.str_Series one_missing
                    <> None).
    { rewrite Htext; [discriminate|vm_compute; discriminate|vm_compute; lia|].
      vm_compute. constructor. reflexivity. }
    reflexivity.
Defined.
